(** * A perceptron for classifying points: the model of [perceptron.go]

    The Go program keeps a perceptron (a slice of [float32] weights and a
    [float32] bias), a separation line [y = a*x + b] held in two global
    [int32] variables, and draws its sample points from [math/rand].

    - [int32] values are integers in [Z]; every [int32] operation of the
      source is written with its wrap-around ([wrap32]).
    - [float32] values are IEEE 754 binary32 numbers: [spec_float] with a
      24-bit significand and maximal exponent 128.  Sums and products are
      rounded to nearest-even after every operation, as the gc compiler does
      on amd64; NaN payloads are not represented.
    - A method with a pointer receiver is a computation over the perceptron
      it points to; a run-time panic stops the computation and keeps the
      state reached so far.
    - [math/rand] and the [draw] package are outside the program: the
      generator is a tape of raw values read in call order (any tape, for
      any seed), the canvas is the list of drawing calls made so far. *)

From Stdlib Require Import ZArith Bool Lia.
From Stdlib Require Import Floats.SpecFloat.
From stdpp Require Import base tactics option list.

Local Open Scope Z_scope.

(** ** [int32] *)

Definition int32_min : Z := - 2 ^ 31.
Definition int32_max : Z := 2 ^ 31 - 1.

Definition is_int32 (z : Z) : Prop := int32_min <= z <= int32_max.

(** The value an [int32] operation keeps of its exact result. *)
Definition wrap32 (z : Z) : Z := (z + 2 ^ 31) mod 2 ^ 32 - 2 ^ 31.

(** ** [float32] *)

Module F32.

Definition prec : Z := 24.
Definition emax : Z := 128.

Definition float32 : Type := spec_float.

Definition zero : float32 := S754_zero false.
Definition neg_zero : float32 := S754_zero true.
Definition inf : float32 := S754_infinity false.
Definition neg_inf : float32 := S754_infinity true.
Definition nan : float32 := S754_nan.

(** [math.MaxFloat32], (2^24 - 1) * 2^104. *)
Definition max_float : float32 := SFmax_float prec emax.

Definition add : float32 -> float32 -> float32 := SFadd prec emax.
Definition mul : float32 -> float32 -> float32 := SFmul prec emax.
Definition sub : float32 -> float32 -> float32 := SFsub prec emax.
Definition opp : float32 -> float32 := SFopp.

(** The conversion [float32(n)] of an integer. *)
Definition of_int (n : Z) : float32 := binary_normalize prec emax n 0 false.

(** The comparisons [x < y], [x <= y] and [x == y]; all three are false
    when an operand is NaN. *)
Definition ltb : float32 -> float32 -> bool := SFltb.
Definition leb : float32 -> float32 -> bool := SFleb.
Definition eqb : float32 -> float32 -> bool := SFeqb.

Definition is_nan (x : float32) : bool :=
  match x with S754_nan => true | _ => false end.

(** Neither an infinity nor NaN. *)
Definition is_finite (x : float32) : bool :=
  match x with S754_zero _ | S754_finite _ _ _ => true | _ => false end.

Definition is_zero (x : float32) : bool :=
  match x with S754_zero _ => true | _ => false end.

(** A representable binary32 value. *)
Definition valid (x : float32) : bool := valid_binary prec emax x.

End F32.

Abbreviation float32 := F32.float32.

(** ** Panics and computations *)

(** The run-time panics the program can raise. *)
Inductive panic : Type :=
  | IndexOutOfRange (index len : nat)
  | InvalidArgument (n : Z)
  | MakeSliceLenOutOfRange.

Inductive outcome (A : Type) : Type :=
  | Ok (a : A)
  | Panic (e : panic).
Arguments Ok {A} a.
Arguments Panic {A} e.

(** A computation over a state [S]: it ends normally with a value or panics,
    and in both cases leaves a state behind. *)
Definition M (S A : Type) : Type := S -> outcome A * S.

Definition ret {S A} (a : A) : M S A := fun s => (Ok a, s).

Definition bind {S A B} (c : M S A) (k : A -> M S B) : M S B :=
  fun s =>
    match c s with
    | (Ok a, s') => k a s'
    | (Panic e, s') => (Panic e, s')
    end.

Definition raise {S A} (e : panic) : M S A := fun s => (Panic e, s).
Definition gets {S A} (f : S -> A) : M S A := fun s => (Ok (f s), s).
Definition modify {S} (f : S -> S) : M S unit := fun s => (Ok tt, f s).

Notation "'let*' x ':=' c 'in' k" := (bind c (fun x => k))
  (at level 10, x name, c at level 200, k at level 200).

(** ** The perceptron *)

Record Perceptron : Type := mkPerceptron {
  weights : list float32;
  bias : float32
}.

(** The Heaviside step function. *)
Definition heaviside (f : float32) : Z :=
  if F32.ltb f F32.zero then 0 else 1.

(** [p.weights[i]], read. *)
Definition weight_at (i : nat) : M Perceptron float32 :=
  fun p =>
    match weights p !! i with
    | Some w => (Ok w, p)
    | None => (Panic (IndexOutOfRange i (length (weights p))), p)
    end.

(** [p.weights[i] = w]. *)
Definition set_weight (i : nat) (w : float32) : M Perceptron unit :=
  fun p =>
    if decide (i < length (weights p))%nat
    then (Ok tt, mkPerceptron (<[i := w]> (weights p)) (bias p))
    else (Panic (IndexOutOfRange i (length (weights p))), p).

Definition set_bias (b : float32) : M Perceptron unit :=
  modify (fun p => mkPerceptron (weights p) b).

(** The loop of [Process], from index [i] on, with the running [sum]. *)
Fixpoint Process_loop (i : nat) (inputs : list Z) (sum : float32)
  : M Perceptron float32 :=
  match inputs with
  | [] => ret sum
  | input :: rest =>
      let* w := weight_at i in
      Process_loop (S i) rest (F32.add sum (F32.mul (F32.of_int input) w))
  end.

Definition Process (inputs : list Z) : M Perceptron Z :=
  let* b := gets bias in
  let* sum := Process_loop 0 inputs b in
  ret (heaviside sum).

(** The loop of [Adjust], from index [i] on. *)
Fixpoint Adjust_loop (i : nat) (inputs : list Z) (delta : Z)
    (learningRate : float32) : M Perceptron unit :=
  match inputs with
  | [] => ret tt
  | input :: rest =>
      let* w := weight_at i in
      let* _ := set_weight i
                  (F32.add w
                     (F32.mul (F32.mul (F32.of_int input) (F32.of_int delta))
                        learningRate)) in
      Adjust_loop (S i) rest delta learningRate
  end.

Definition Adjust (inputs : list Z) (delta : Z) (learningRate : float32)
  : M Perceptron unit :=
  let* _ := Adjust_loop 0 inputs delta learningRate in
  let* b := gets bias in
  set_bias (F32.add b (F32.mul (F32.of_int delta) learningRate)).

(** ** The world around the perceptron *)

(** The process-wide generator of [math/rand]: [tape] holds the raw values
    it will produce, [drawn] counts the values produced so far. *)
Record Rand : Type := mkRand {
  tape : nat -> Z;
  drawn : nat
}.

(** The calls made to the [draw] package. *)
Inductive draw_call : Type :=
  | NewCanvas
  | DrawPoint (x y : Z) (above : bool)
  | DrawLinearFunction (a b : Z)
  | Save.

(** The perceptron that [p] points to, the globals [a] and [b], the
    generator and the calls made to the canvas, latest last. *)
Record World : Type := mkWorld {
  perceptron : Perceptron;
  a : Z;
  b : Z;
  rand : Rand;
  canvas : list draw_call
}.

(** A method call on [p]. *)
Definition on_perceptron {A} (c : M Perceptron A) : M World A :=
  fun w =>
    let (r, p') := c (perceptron w) in
    (r, mkWorld p' (a w) (b w) (rand w) (canvas w)).

(** [rand.Int31n(n)]: a value of the half-open interval [0, n), the next
    raw value of the tape reduced to it; it panics if [n <= 0]. *)
Definition Int31n (n : Z) : M World Z :=
  fun w =>
    if n <=? 0 then (Panic (InvalidArgument n), w)
    else
      (Ok (tape (rand w) (drawn (rand w)) mod n),
       mkWorld (perceptron w) (a w) (b w)
         (mkRand (tape (rand w)) (S (drawn (rand w)))) (canvas w)).

(** [rand.Float32()]: a value of the half-open interval [0.0, 1.0), the
    next raw value of the tape reduced to 24 bits and scaled by 2^-24. *)
Definition Float32 : M World float32 :=
  fun w =>
    (Ok (binary_normalize F32.prec F32.emax
           (tape (rand w) (drawn (rand w)) mod 2 ^ 24) (-24) false),
     mkWorld (perceptron w) (a w) (b w)
       (mkRand (tape (rand w)) (S (drawn (rand w)))) (canvas w)).

Definition draw (c : draw_call) : M World unit :=
  modify (fun w =>
    mkWorld (perceptron w) (a w) (b w) (rand w) (canvas w ++ [c])).

(** ** Making a perceptron *)

(** [make([]float32, n, n)]. *)
Definition make {S} (n : Z) : M S (list float32) :=
  if n <? 0 then raise MakeSliceLenOutOfRange
  else ret (replicate (Z.to_nat n) F32.zero).

(** [w[i] = v]. *)
Definition store {S} (w : list float32) (i : nat) (v : float32)
  : M S (list float32) :=
  if decide (i < length w)%nat then ret (<[i := v]> w)
  else raise (IndexOutOfRange i (length w)).

(** [rand.Float32()*2 - 1]. *)
Definition random_weight : M World float32 :=
  let* r := Float32 in
  ret (F32.sub (F32.mul r (F32.of_int 2)) (F32.of_int 1)).

(** The loop of [NewPerceptron], from index [i] on, [k] rounds to go. *)
Fixpoint NewPerceptron_loop (k i : nat) (w : list float32)
  : M World (list float32) :=
  match k with
  | O => ret w
  | S k' =>
      let* v := random_weight in
      let* w := store w i v in
      NewPerceptron_loop k' (S i) w
  end.

Definition NewPerceptron (n : Z) : M World Perceptron :=
  let* w := make n in
  let* w := NewPerceptron_loop (Z.to_nat n) 0 w in
  let* bias := random_weight in
  ret (mkPerceptron w bias).

(** ** The separation line *)

(** [f(x) = a*x + b], in [int32] arithmetic, for the globals of [w]. *)
Definition f (w : World) (x : Z) : Z := wrap32 (wrap32 (a w * x) + b w).

(** [point[i]], read. *)
Definition index {S} (point : list Z) (i : nat) : M S Z :=
  match point !! i with
  | Some v => ret v
  | None => raise (IndexOutOfRange i (length point))
  end.

Definition isAboveLine {S} (point : list Z) (f : Z -> Z) : M S Z :=
  let* x := index point 0 in
  let* y := index point 1 in
  ret (if y >? f x then 1 else 0).

(** ** Training *)

(** A sample point: two calls of [rand.Int31n(201)], each less 101. *)
Definition sample_point : M World (list Z) :=
  let* x := Int31n 201 in
  let* y := Int31n 201 in
  ret [wrap32 (x - 101); wrap32 (y - 101)].

(** The body of the loop of [train]. *)
Definition train_step (rate : float32) : M World unit :=
  let* point := sample_point in
  let* actual := on_perceptron (Process point) in
  let* line := gets f in
  let* expected := isAboveLine point line in
  let delta := wrap32 (expected - actual) in
  on_perceptron (Adjust point delta rate).

(** [for i := 0; i < n; i++ { body }], for a body that leaves [i] alone:
    the body runs [n] times. *)
Fixpoint for_loop {S} (n : nat) (body : M S unit) : M S unit :=
  match n with
  | O => ret tt
  | S n' => let* _ := body in for_loop n' body
  end.

(** The condition [i < iters] fails at once when [iters <= 0], and after
    [iters] rounds otherwise. *)
Definition train (iters : Z) (rate : float32) : M World unit :=
  for_loop (Z.to_nat iters) (train_step rate).

(** ** Verification *)

(** The body of the loop of [verify], from the count so far to the next. *)
Definition verify_step (correctAnswers : Z) : M World Z :=
  let* point := sample_point in
  let* result := on_perceptron (Process point) in
  let* line := gets f in
  let* expected := isAboveLine point line in
  let correctAnswers :=
    if result =? expected then wrap32 (correctAnswers + 1)
    else correctAnswers in
  let* x := index point 0 in
  let* y := index point 1 in
  let* _ := draw (DrawPoint x y (result =? 1)) in
  ret correctAnswers.

Fixpoint verify_loop (n : nat) (correctAnswers : Z) : M World Z :=
  match n with
  | O => ret correctAnswers
  | S n' =>
      let* correctAnswers := verify_step correctAnswers in
      verify_loop n' correctAnswers
  end.

Definition verify : M World Z :=
  let* _ := draw NewCanvas in
  let* correctAnswers := verify_loop 100 0 in
  let* ga := gets a in
  let* gb := gets b in
  let* _ := draw (DrawLinearFunction ga gb) in
  let* _ := draw Save in
  ret correctAnswers.

(** ** Set-up *)

(** The first statements of [main]: the line parameters. *)
Definition main_line : M World unit :=
  let* r := Int31n 11 in
  let* _ := modify (fun w =>
    mkWorld (perceptron w) (wrap32 (r - 6)) (b w) (rand w) (canvas w)) in
  let* r := Int31n 101 in
  modify (fun w =>
    mkWorld (perceptron w) (a w) (wrap32 (r - 51)) (rand w) (canvas w)).

(** The learning rate of [main]: the [float32] nearest to 0.1. *)
Definition one_tenth : float32 := S754_finite false 13421773 (-27).

(** [main], for the tape that its seed stands for: it returns the number
    that it prints. *)
Definition main : M World Z :=
  let* _ := main_line in
  let* p := NewPerceptron 2 in
  let* _ := modify (fun w => mkWorld p (a w) (b w) (rand w) (canvas w)) in
  let* _ := train 1000 one_tenth in
  let* successRate := verify in
  ret successRate.

(** * What the properties are stated with *)

(** The sum [bias + inputs[0]*weights[0] + inputs[1]*weights[1] + ...],
    each product and each partial sum rounded to [float32], over the
    indices that both sequences have. *)
Fixpoint weighted_sum (sum : float32) (inputs : list Z) (ws : list float32)
  : float32 :=
  match inputs, ws with
  | input :: inputs', w :: ws' =>
      weighted_sum (F32.add sum (F32.mul (F32.of_int input) w)) inputs' ws'
  | _, _ => sum
  end.

(** The sum that [Process] passes to the step function. *)
Definition sum_of (p : Perceptron) (inputs : list Z) : float32 :=
  weighted_sum (bias p) inputs (weights p).

(** The weights after [weights[i] += inputs[i] * delta * learningRate] at
    the indices that both sequences have. *)
Fixpoint adjusted (inputs : list Z) (delta : Z) (learningRate : float32)
    (ws : list float32) : list float32 :=
  match inputs, ws with
  | input :: inputs', w :: ws' =>
      F32.add w
        (F32.mul (F32.mul (F32.of_int input) (F32.of_int delta)) learningRate)
      :: adjusted inputs' delta learningRate ws'
  | _, _ => ws
  end.

(** What an old value may become when a zero is added: itself, or the
    positive zero in place of the negative one. *)
Definition same_value (old new : float32) : Prop :=
  new = old \/ (old = F32.neg_zero /\ new = F32.zero).

(** The coordinate made from the raw value [v]: [rand.Int31n(201) - 101]. *)
Definition coord (v : Z) : Z := wrap32 (v mod 201 - 101).

(** The world after [n] more values have been drawn. *)
Definition drawn_more (n : nat) (w : World) : World :=
  mkWorld (perceptron w) (a w) (b w)
    (mkRand (tape (rand w)) (n + drawn (rand w))) (canvas w).

(** The point of trial number [k] (from 0) of a run of [train] or [verify]
    that starts in [w]: two values are drawn per trial. *)
Definition trial_x (w : World) (k : nat) : Z :=
  coord (tape (rand w) (2 * k + drawn (rand w))).

Definition trial_y (w : World) (k : nat) : Z :=
  coord (tape (rand w) (S (2 * k + drawn (rand w)))).

Definition trial_point (w : World) (k : nat) : list Z :=
  [trial_x w k; trial_y w k].

(** The call that shows trial number [k] of [verify] on the canvas: the
    point, and whether the perceptron answered 1. *)
Definition trial_call (w : World) (k : nat) : draw_call :=
  DrawPoint (trial_x w k) (trial_y w k)
    (heaviside (sum_of (perceptron w) (trial_point w k)) =? 1).

(** The label of the line for the next sample point, and the difference
    between it and the perceptron's answer that [train] computes. *)
Definition next_label (w : World) : Z :=
  if trial_y w 0 >? f w (trial_x w 0) then 1 else 0.

Definition next_delta (w : World) : Z :=
  wrap32 (next_label w - heaviside (sum_of (perceptron w) (trial_point w 0))).

(** Whether the perceptron's answer for [point] is the label of the line. *)
Definition answers_match (w : World) (point : list Z) : bool :=
  match fst (Process point (perceptron w)), fst (isAboveLine point (f w) w) with
  | Ok result, Ok expected => result =? expected
  | _, _ => false
  end.

(** The number of trials among the first [n] in which they match. *)
Definition correct_trials (w : World) (n : nat) : nat :=
  length (filter (fun k => answers_match w (trial_point w k) = true) (seq 0 n)).

(** [w'] is [w] after [k] trials: same perceptron, line and tape, [2 * k]
    more values drawn. *)
Definition after_trials (k : nat) (w w' : World) : Prop :=
  perceptron w' = perceptron w /\ a w' = a w /\ b w' = b w
  /\ tape (rand w') = tape (rand w)
  /\ drawn (rand w') = (2 * k + drawn (rand w))%nat.

(** Equal, or zeros of either sign: values that [==] and the step function
    do not tell apart. *)
Definition alike (x y : float32) : Prop :=
  x = y \/ (F32.is_zero x = true /\ F32.is_zero y = true).

(** The value that [rand.Float32()] makes of the raw value [v]. *)
Definition unit_float (v : Z) : float32 :=
  binary_normalize F32.prec F32.emax (v mod 2 ^ 24) (-24) false.

(** The value of [rand.Float32()*2 - 1] at the [i]-th draw from now. *)
Definition fresh_weight (w : World) (i : nat) : float32 :=
  F32.sub
    (F32.mul (unit_float (tape (rand w) (i + drawn (rand w)))) (F32.of_int 2))
    (F32.of_int 1).

(** The label of the line [y = a*x + b] over the integers. *)
Definition exact_label (a b x y : Z) : Z := if y >? a * x + b then 1 else 0.

(** A call that draws a point with both coordinates in [-101, 99]. *)
Definition draws_sample (c : draw_call) : Prop :=
  exists (x y : Z) (above : bool),
    c = DrawPoint x y above /\ -101 <= x <= 99 /\ -101 <= y <= 99.

(** Perceptrons with as many weights, alike one by one, and alike biases. *)
Definition alike_perceptrons (p q : Perceptron) : Prop :=
  Forall2 alike (weights p) (weights q) /\ alike (bias p) (bias q).

(** [w'] is [w] after [k] iterations of [train] that left the perceptron
    alike: same line, canvas and tape, [2 * k] more values drawn. *)
Definition still_alike (k : nat) (w w' : World) : Prop :=
  alike_perceptrons (perceptron w) (perceptron w')
  /\ a w' = a w /\ b w' = b w /\ canvas w' = canvas w
  /\ tape (rand w') = tape (rand w)
  /\ drawn (rand w') = (2 * k + drawn (rand w))%nat.

(** * Values used in the examples *)

(** Weights [MaxFloat32] and [-MaxFloat32], bias 0. *)
Definition p_large : Perceptron :=
  mkPerceptron [F32.max_float; F32.opp F32.max_float] F32.zero.

(** One infinite weight, bias 0. *)
Definition p_inf : Perceptron := mkPerceptron [F32.inf] F32.zero.

(** Weights 1 and -1, bias 0. *)
Definition p_diag : Perceptron :=
  mkPerceptron [F32.of_int 1; F32.of_int (-1)] F32.zero.

(** Weights 1 and 1, bias 0. *)
Definition p_ones : Perceptron :=
  mkPerceptron [F32.of_int 1; F32.of_int 1] F32.zero.

(** The line [y = 2*x + 3] around an untrained perceptron, nothing drawn
    yet of a tape that scatters the sample points. *)
Definition w_line : World :=
  mkWorld (mkPerceptron [F32.zero; F32.zero] F32.zero) 2 3
    (mkRand
       (fun i => Z.of_nat i * Z.of_nat i * 7919 + Z.of_nat i * 104729 + 13) 0)
    [].

(** A perceptron that answers 1 everywhere, and a line of label 1 at the
    first sample point of [w_line]. *)
Definition w_right : World :=
  mkWorld (mkPerceptron [F32.zero; F32.zero] (F32.of_int 1)) 0 (-51)
    (rand w_line) [].

(** * Tactics *)

(** Closes a goal that bounds an explicit expression within [int32]. *)
Ltac int32_bounds := unfold is_int32, int32_min, int32_max in *; lia.

(** * Properties *)

(** ** [int32] arithmetic *)

Lemma wrap32_id (z : Z) : is_int32 z -> wrap32 z = z.
Proof.
  unfold is_int32, int32_min, int32_max, wrap32. intros Hz.
  rewrite Z.mod_small; lia.
Qed.

Lemma wrap32_range (z : Z) : is_int32 (wrap32 z).
Proof.
  unfold is_int32, int32_min, int32_max, wrap32.
  pose proof (Z.mod_pos_bound (z + 2 ^ 31) (2 ^ 32)). lia.
Qed.

Lemma wrap32_add_l (u v : Z) : wrap32 (wrap32 u + v) = wrap32 (u + v).
Proof.
  unfold wrap32. f_equal.
  replace ((u + 2 ^ 31) mod 2 ^ 32 - 2 ^ 31 + v + 2 ^ 31)
    with ((u + 2 ^ 31) mod 2 ^ 32 + v) by lia.
  rewrite Zplus_mod_idemp_l. f_equal. lia.
Qed.

(** ** [float32]: comparisons with zero *)

Lemma ltb_zero_not_leb (x : float32) :
  F32.is_nan x = false -> F32.ltb x F32.zero = negb (F32.leb F32.zero x).
Proof. destruct x as [s | s | | s m e]; try destruct s; done. Qed.

Lemma ltb_zero_of_zero (x : float32) :
  F32.is_zero x = true -> F32.ltb x F32.zero = false.
Proof. destruct x; done. Qed.

Lemma ltb_zero_of_nan (x : float32) :
  F32.is_nan x = true -> F32.ltb x F32.zero = false.
Proof. destruct x; done. Qed.

Lemma heaviside_binary (x : float32) : heaviside x = 0 \/ heaviside x = 1.
Proof. unfold heaviside. destruct (F32.ltb x F32.zero); auto. Qed.

(** ** [float32]: the conversion of an [int32] is finite *)

Lemma digits2_pos_le (p : positive) :
  forall n : Z, 0 <= n -> Z.pos p < 2 ^ n -> Z.pos (digits2_pos p) <= n.
Proof.
  induction p as [p IH | p IH |]; intros n Hn Hp; simpl.
  - assert (n <> 0) by (intros ->; simpl in Hp; lia).
    assert (Hpow : 2 ^ n = 2 * 2 ^ (n - 1))
      by (rewrite <- Z.pow_succ_r by lia; f_equal; lia).
    specialize (IH (n - 1)). lia.
  - assert (n <> 0) by (intros ->; simpl in Hp; lia).
    assert (Hpow : 2 ^ n = 2 * 2 ^ (n - 1))
      by (rewrite <- Z.pow_succ_r by lia; f_equal; lia).
    specialize (IH (n - 1)). lia.
  - assert (n <> 0) by (intros ->; simpl in Hp; lia). lia.
Qed.

Lemma Zdigits2_le (z n : Z) : 0 <= n -> 0 <= z < 2 ^ n -> Zdigits2 z <= n.
Proof.
  intros Hn [Hz0 Hz]. destruct z as [| p | p]; simpl; try lia.
  by apply digits2_pos_le.
Qed.

Lemma shr_1_bound (B : Z) (mrs : shr_record) :
  0 <= shr_m mrs <= B -> 0 <= shr_m (shr_1 mrs) <= B.
Proof.
  destruct mrs as [m r s]. simpl.
  destruct m as [| [p | p |] | [p | p |]]; simpl; lia.
Qed.

Lemma iter_shr_1_bound (B : Z) (n : positive) :
  forall mrs : shr_record,
    0 <= shr_m mrs <= B ->
    0 <= shr_m (SpecFloat.iter_pos shr_1 n mrs) <= B.
Proof.
  induction n as [n IH | n IH |]; intros mrs Hm; simpl.
  - by apply IH, IH, shr_1_bound.
  - by apply IH, IH.
  - by apply shr_1_bound.
Qed.

Lemma shr_m_of_loc (m : Z) (l : location) :
  shr_m (shr_record_of_loc m l) = m.
Proof. by destruct l as [| []]. Qed.

(** One normalisation step keeps the significand within its bound and
    moves the exponent at most up to the one its digits call for. *)
Lemma shr_fexp_bound (D E m e : Z) (l : location) :
  0 <= D -> 0 <= m < 2 ^ D -> e <= E ->
  0 <= shr_m (fst (shr_fexp F32.prec F32.emax m e l)) < 2 ^ D /\
  snd (shr_fexp F32.prec F32.emax m e l) <= Z.max E (Z.max (D + E - 24) (-149)).
Proof.
  intros HD Hm He. unfold shr_fexp, shr.
  pose proof (Zdigits2_le m D HD Hm) as Hd.
  assert (Hf : fexp F32.prec F32.emax (Zdigits2 m + e)
               <= Z.max E (Z.max (D + E - 24) (-149))).
  { unfold fexp, emin, F32.prec, F32.emax. lia. }
  destruct (fexp F32.prec F32.emax (Zdigits2 m + e) - e) as [| n | n] eqn:Hn;
    simpl; rewrite ?shr_m_of_loc; try lia.
  split.
  - pose proof (iter_shr_1_bound (2 ^ D - 1) n (shr_record_of_loc m l)) as Hb.
    rewrite shr_m_of_loc in Hb. lia.
  - lia.
Qed.

Lemma round_nearest_even_bound (m : Z) (l : location) :
  0 <= m -> 0 <= round_nearest_even m l <= m + 1.
Proof.
  intros Hm. destruct l as [| []]; simpl; try lia.
  destruct (Z.even m); lia.
Qed.

(** Rounding a significand below 2^55 at an exponent that is not positive
    stays within the range of [float32]. *)
Lemma binary_round_aux_finite (s : bool) (mx ex : Z) (l : location) :
  0 <= mx < 2 ^ 55 -> ex <= 0 ->
  F32.is_finite (binary_round_aux F32.prec F32.emax s mx ex l) = true.
Proof.
  intros Hm He. unfold binary_round_aux.
  pose proof (shr_fexp_bound 55 0 mx ex l ltac:(lia) Hm He) as [Hm1 He1].
  destruct (shr_fexp F32.prec F32.emax mx ex l) as [mrs1 e1]. simpl in Hm1, He1.
  set (m1 := round_nearest_even (shr_m mrs1) (loc_of_shr_record mrs1)).
  pose proof (round_nearest_even_bound (shr_m mrs1) (loc_of_shr_record mrs1)
                ltac:(lia)) as Hr.
  fold m1 in Hr.
  assert (Hm1' : 0 <= m1 < 2 ^ 56).
  { change (2 ^ 56) with (2 * 2 ^ 55). lia. }
  pose proof (shr_fexp_bound 56 31 m1 e1 loc_Exact ltac:(lia) Hm1' ltac:(lia))
    as [Hm2 He2].
  destruct (shr_fexp F32.prec F32.emax m1 e1 loc_Exact) as [mrs2 e2].
  simpl in Hm2, He2.
  destruct (shr_m mrs2) as [| m2 | m2]; [done | | lia].
  assert ((e2 <=? F32.emax - F32.prec) = true) as ->; [| done].
  apply Z.leb_le. unfold F32.emax, F32.prec. lia.
Qed.

Lemma binary_round_int_finite (s : bool) (m : positive) :
  Z.pos m < 2 ^ 32 ->
  F32.is_finite (binary_round F32.prec F32.emax s m 0) = true.
Proof.
  intros Hm. unfold binary_round, shl_align.
  pose proof (digits2_pos_le m 32 ltac:(lia) Hm) as Hd.
  assert (Hf : fexp F32.prec F32.emax (Z.pos (digits2_pos m) + 0)
               = Z.pos (digits2_pos m) - 24).
  { unfold fexp, emin, F32.prec, F32.emax. lia. }
  rewrite Hf.
  destruct (Z.pos (digits2_pos m) - 24 - 0) as [| d | d] eqn:Hdd.
  - apply binary_round_aux_finite; lia.
  - apply binary_round_aux_finite; lia.
  - apply binary_round_aux_finite; [| lia].
    split; [lia |].
    change (Pos.iter xO m d) with (shift_pos d m).
    rewrite shift_pos_correct, Z.pow_pos_fold.
    assert (2 ^ Z.pos d <= 2 ^ 23) by (apply Z.pow_le_mono_r; lia).
    change (2 ^ 55) with (2 ^ 23 * 2 ^ 32). nia.
Qed.

Lemma of_int_finite (n : Z) : is_int32 n -> F32.is_finite (F32.of_int n) = true.
Proof.
  unfold is_int32, int32_min, int32_max, F32.of_int, binary_normalize.
  intros Hn. destruct n as [| m | m]; [done | |];
    apply binary_round_int_finite; lia.
Qed.

(** ** [float32]: multiplying by the conversion of zero, adding a zero *)

Lemma mul_zero_r_finite (x y : float32) :
  F32.is_finite x = true -> F32.is_zero y = true ->
  F32.is_zero (F32.mul x y) = true.
Proof. destruct x, y; done. Qed.

Lemma mul_zero_l_finite (x y : float32) :
  F32.is_zero x = true -> F32.is_finite y = true ->
  F32.is_zero (F32.mul x y) = true.
Proof. destruct x, y; done. Qed.

Lemma add_zero_r (x z : float32) :
  F32.is_zero z = true -> same_value x (F32.add x z).
Proof.
  unfold same_value.
  destruct x as [[] | | |], z as [[] | | |]; try done; auto.
Qed.

(** Values related by [same_value] are equal for [==], unless they are NaN,
    and the step function does not tell them apart. *)
Lemma same_value_eqb (old new : float32) :
  same_value old new -> F32.is_nan old = false -> F32.eqb old new = true.
Proof.
  intros [-> | [-> ->]] Hnan; [| done].
  destruct old as [s | [] | | [] m e]; try done;
    unfold F32.eqb, SFeqb, SFcompare;
    by rewrite Z.compare_refl, Pos.compare_cont_refl.
Qed.

Lemma same_value_heaviside (old new : float32) :
  same_value old new -> heaviside new = heaviside old.
Proof. by intros [-> | [-> ->]]. Qed.

(** The term that [Adjust] adds to a weight is a zero when [delta] is 0. *)
Lemma zero_delta_term (input : Z) (learningRate : float32) :
  is_int32 input -> F32.is_finite learningRate = true ->
  F32.is_zero
    (F32.mul (F32.mul (F32.of_int input) (F32.of_int 0)) learningRate) = true.
Proof.
  intros Hi Hr. apply mul_zero_l_finite; [| done].
  apply mul_zero_r_finite; [by apply of_int_finite | done].
Qed.

(** ** The loops of [Process] and [Adjust] *)

Lemma length_adjusted inputs delta r ws :
  length (adjusted inputs delta r ws) = length ws.
Proof.
  revert ws. induction inputs as [| input inputs IH]; intros [| w ws];
    simpl; auto.
Qed.

Lemma lookup_adjusted inputs delta r ws i input w :
  inputs !! i = Some input -> ws !! i = Some w ->
  adjusted inputs delta r ws !! i
  = Some (F32.add w
            (F32.mul (F32.mul (F32.of_int input) (F32.of_int delta)) r)).
Proof.
  revert ws i. induction inputs as [| x inputs IH]; intros [| v ws] [| i];
    simpl; try done.
  - by intros [= ->] [= ->].
  - apply IH.
Qed.

(** Weights past the end of the inputs are left as they are. *)
Lemma lookup_adjusted_ge inputs delta r ws i :
  (length inputs <= i)%nat -> adjusted inputs delta r ws !! i = ws !! i.
Proof.
  revert ws i. induction inputs as [| x inputs IH]; intros [| v ws] [| i];
    simpl; try done; try lia.
  intros Hi. apply IH. lia.
Qed.

Lemma Process_loop_spec (inputs : list Z) :
  forall (pre ws : list float32) (sum b : float32),
    Process_loop (length pre) inputs sum (mkPerceptron (pre ++ ws) b)
    = (if decide (length inputs <= length ws)%nat
       then Ok (weighted_sum sum inputs ws)
       else Panic (IndexOutOfRange (length (pre ++ ws)) (length (pre ++ ws))),
       mkPerceptron (pre ++ ws) b).
Proof.
  induction inputs as [| input inputs IH]; intros pre ws sum b;
    cbn [Process_loop length].
  - rewrite decide_True by lia. done.
  - unfold bind, weight_at. cbn [weights].
    rewrite lookup_app_r by lia. rewrite Nat.sub_diag.
    destruct ws as [| w ws]; cbn [lookup list_lookup length].
    + rewrite decide_False by lia. by rewrite app_nil_r.
    + specialize (IH (pre ++ [w]) ws).
      rewrite length_app, <- app_assoc in IH. cbn [length app] in IH.
      rewrite Nat.add_1_r in IH. rewrite IH.
      destruct (decide (length inputs <= length ws)%nat).
      * rewrite decide_True by lia. done.
      * rewrite decide_False by lia. done.
Qed.

Lemma Adjust_loop_spec (inputs : list Z) (delta : Z) (r : float32) :
  forall (pre ws : list float32) (b : float32),
    Adjust_loop (length pre) inputs delta r (mkPerceptron (pre ++ ws) b)
    = (if decide (length inputs <= length ws)%nat
       then Ok tt
       else Panic (IndexOutOfRange (length (pre ++ ws)) (length (pre ++ ws))),
       mkPerceptron (pre ++ adjusted inputs delta r ws) b).
Proof.
  induction inputs as [| input inputs IH]; intros pre ws b;
    cbn [Adjust_loop adjusted length].
  - rewrite decide_True by lia. done.
  - unfold bind at 1, weight_at. cbn [weights].
    rewrite lookup_app_r by lia. rewrite Nat.sub_diag.
    destruct ws as [| w ws]; cbn [lookup list_lookup length].
    + rewrite decide_False by lia. by rewrite app_nil_r.
    + unfold bind at 1, set_weight. cbn [weights bias].
      rewrite decide_True by (rewrite length_app; cbn [length]; lia).
      rewrite insert_app_r_alt by lia. rewrite Nat.sub_diag.
      cbn [insert list_insert].
      set (w' := F32.add w _).
      specialize (IH (pre ++ [w']) ws b).
      rewrite length_app, <- app_assoc in IH. cbn [length app] in IH.
      rewrite Nat.add_1_r in IH. rewrite IH.
      rewrite !length_app. cbn [length].
      destruct (decide (length inputs <= length ws)%nat).
      * rewrite decide_True by lia. by rewrite <- app_assoc.
      * rewrite decide_False by lia. by rewrite <- app_assoc.
Qed.

(** [Process] on any input: the step of the sum over the given inputs when
    the weights cover them, the run-time's index panic otherwise; the
    perceptron is the same afterwards in both cases. *)
Lemma Process_spec (p : Perceptron) (inputs : list Z) :
  Process inputs p
  = (if decide (length inputs <= length (weights p))%nat
     then Ok (heaviside (sum_of p inputs))
     else Panic (IndexOutOfRange (length (weights p)) (length (weights p))),
     p).
Proof.
  destruct p as [ws b]. unfold Process, bind, gets. cbn [bias weights].
  pose proof (Process_loop_spec inputs [] ws b b) as Hloop.
  cbn [length app] in Hloop. rewrite Hloop.
  by destruct (decide (length inputs <= length ws)%nat).
Qed.

(** [Adjust] on any input: the weights that have an input are updated in
    both cases, the bias only if the loop did not panic. *)
Lemma Adjust_spec (p : Perceptron) (inputs : list Z) (delta : Z) (r : float32) :
  Adjust inputs delta r p
  = if decide (length inputs <= length (weights p))%nat
    then (Ok tt,
          mkPerceptron (adjusted inputs delta r (weights p))
            (F32.add (bias p) (F32.mul (F32.of_int delta) r)))
    else (Panic (IndexOutOfRange (length (weights p)) (length (weights p))),
          mkPerceptron (adjusted inputs delta r (weights p)) (bias p)).
Proof.
  destruct p as [ws b]. unfold Adjust, bind at 1. cbn [bias weights].
  pose proof (Adjust_loop_spec inputs delta r [] ws b) as Hloop.
  cbn [length app] in Hloop. rewrite Hloop.
  by destruct (decide (length inputs <= length ws)%nat).
Qed.

(** ** [Process] *)

(** C1, as stated, fails: with weights [MaxFloat32] and [-MaxFloat32], bias 0
    and inputs 2 and 3 the products overflow to +Inf and -Inf, the sum is
    NaN, which is not [>= 0], and [Process] returns 1; likewise with an
    infinite weight and input 0, whose product is NaN. *)
Lemma Process_nan_sum_returns_1 :
  (length [2; 3] = length (weights p_large)
   /\ forallb F32.valid (weights p_large) = true
   /\ Process [2; 3] p_large = (Ok 1, p_large)
   /\ sum_of p_large [2; 3] = F32.nan
   /\ F32.leb F32.zero (sum_of p_large [2; 3]) = false)
  /\ (length [0] = length (weights p_inf)
      /\ Process [0] p_inf = (Ok 1, p_inf)
      /\ sum_of p_inf [0] = F32.nan
      /\ F32.leb F32.zero (sum_of p_inf [0]) = false).
Proof. vm_compute. repeat split. Qed.

(** C1, amended: for a perceptron and inputs of matching length, [Process]
    returns the Heaviside step of the [float32] sum
    [bias + inputs[0]*weights[0] + ...]: 0 if that sum is [< 0] and 1
    otherwise, never another value and with the perceptron untouched; so it
    returns 1 if the sum is [>= 0] and 0 otherwise whenever the sum is a
    number, and 1 when the sum is NaN. *)
Theorem Process_step_of_sum (p : Perceptron) (inputs : list Z) :
  length inputs = length (weights p) ->
  Process inputs p
  = (Ok (if F32.ltb (sum_of p inputs) F32.zero then 0 else 1), p)
  /\ (fst (Process inputs p) = Ok 0 \/ fst (Process inputs p) = Ok 1)
  /\ (F32.is_nan (sum_of p inputs) = false ->
      Process inputs p
      = (Ok (if F32.leb F32.zero (sum_of p inputs) then 1 else 0), p))
  /\ (F32.is_nan (sum_of p inputs) = true -> Process inputs p = (Ok 1, p)).
Proof.
  intros Hlen. rewrite Process_spec, decide_True by lia.
  unfold heaviside. repeat split.
  - cbn [fst]. destruct (F32.ltb _ _); auto.
  - intros Hnan. rewrite (ltb_zero_not_leb _ Hnan).
    by destruct (F32.leb _ _).
  - intros Hnan. by rewrite (ltb_zero_of_nan _ Hnan).
Qed.

Lemma Process_step_of_sum_witness :
  Process [7; 3] p_diag = (Ok 1, p_diag)
  /\ Process [3; 7] p_diag = (Ok 0, p_diag).
Proof.
  split.
  - exact (proj1 (Process_step_of_sum p_diag [7; 3] eq_refl)).
  - exact (proj1 (Process_step_of_sum p_diag [3; 7] eq_refl)).
Defined.

(** C8: [Process] leaves the perceptron as it found it, whether it returns
    or panics; its result is determined by the weights, the bias and the
    inputs; and a second call with the same inputs, on the perceptron the
    first call left, does the same as the first. *)
Theorem Process_pure (p : Perceptron) (inputs : list Z) :
  snd (Process inputs p) = p
  /\ (forall q : Perceptron,
        weights q = weights p -> bias q = bias p ->
        fst (Process inputs q) = fst (Process inputs p))
  /\ Process inputs (snd (Process inputs p)) = Process inputs p.
Proof.
  assert (Hsame : snd (Process inputs p) = p) by (by rewrite Process_spec).
  split; [done |]. split.
  - intros [ws' b'] Hw Hb. cbn [weights bias] in Hw, Hb. subst.
    by destruct p.
  - by rewrite Hsame.
Qed.

Lemma Process_pure_witness :
  snd (Process [3; 7] p_diag) = p_diag
  /\ fst (Process [3; 7] (mkPerceptron (weights p_diag) (bias p_diag)))
     = fst (Process [3; 7] p_diag)
  /\ Process [3; 7] (snd (Process [3; 7] p_diag)) = Process [3; 7] p_diag.
Proof.
  destruct (Process_pure p_diag [3; 7]) as (Hstate & Hresult & Htwice).
  split; [exact Hstate |]. split; [| exact Htwice].
  exact (Hresult (mkPerceptron (weights p_diag) (bias p_diag))
           eq_refl eq_refl).
Defined.

(** ** [Adjust] *)

(** C2: for a perceptron and inputs of matching length, [Adjust] returns
    normally; afterwards every weight is exactly the [float32] value of
    [weights[i] + inputs[i]*delta*learningRate] for the old weight, and the
    bias is exactly that of [bias + delta*learningRate] for the old bias;
    no weight is added or dropped. *)
Theorem Adjust_update_law (p : Perceptron) (inputs : list Z) (delta : Z)
    (learningRate : float32) :
  length inputs = length (weights p) ->
  exists p' : Perceptron,
    Adjust inputs delta learningRate p = (Ok tt, p')
    /\ length (weights p') = length (weights p)
    /\ (forall (i : nat) (input : Z) (w : float32),
          inputs !! i = Some input -> weights p !! i = Some w ->
          weights p' !! i
          = Some (F32.add w
                    (F32.mul (F32.mul (F32.of_int input) (F32.of_int delta))
                       learningRate)))
    /\ bias p'
       = F32.add (bias p) (F32.mul (F32.of_int delta) learningRate).
Proof.
  intros Hlen. rewrite Adjust_spec, decide_True by lia.
  eexists. split; [reflexivity |]. cbn [weights bias].
  split; [apply length_adjusted |]. split; [| done].
  intros i input w Hi Hw. by apply lookup_adjusted.
Qed.

Lemma Adjust_update_law_witness :
  exists p' : Perceptron,
    Adjust [2; 3] 1 one_tenth p_diag = (Ok tt, p')
    /\ weights p' !! 0%nat
       = Some (F32.add (F32.of_int 1)
                 (F32.mul (F32.mul (F32.of_int 2) (F32.of_int 1)) one_tenth))
    /\ bias p' = F32.add F32.zero (F32.mul (F32.of_int 1) one_tenth).
Proof.
  destruct (Adjust_update_law p_diag [2; 3] 1 one_tenth eq_refl)
    as (p' & Hrun & _ & Hw & Hb).
  exists p'. split; [exact Hrun |]. split; [| exact Hb].
  exact (Hw 0%nat 2 (F32.of_int 1) eq_refl eq_refl).
Defined.

(** C6, as stated, fails: with [delta = 0] and an infinite learning rate the
    term added to a weight is [0 * Inf], which is NaN, and so are the weight
    and the bias afterwards. *)
Lemma Adjust_zero_delta_infinite_rate :
  length [1] = length (weights (mkPerceptron [F32.of_int 1] F32.zero))
  /\ Adjust [1] 0 F32.inf (mkPerceptron [F32.of_int 1] F32.zero)
     = (Ok tt, mkPerceptron [F32.nan] F32.nan).
Proof. vm_compute. split; reflexivity. Qed.

Lemma Forall2_same_value_adjusted (inputs : list Z) (r : float32) :
  Forall is_int32 inputs -> F32.is_finite r = true ->
  forall ws : list float32, Forall2 same_value ws (adjusted inputs 0 r ws).
Proof.
  intros Hin Hr. induction Hin as [| input inputs Hi _ IH]; intros ws.
  - cbn [adjusted]. induction ws; constructor; [by left | done].
  - destruct ws as [| w ws]; cbn [adjusted]; [constructor |].
    constructor; [| apply IH].
    by apply add_zero_r, zero_delta_term.
Qed.

(** C6, amended: for a perceptron and [int32] inputs of matching length and
    a learning rate that is neither infinite nor NaN, [Adjust] with
    [delta = 0] leaves every weight and the bias with the value it had:
    each is the same [float32], except that a negative zero may have become
    the positive zero. *)
Theorem Adjust_zero_delta (p : Perceptron) (inputs : list Z)
    (learningRate : float32) :
  length inputs = length (weights p) ->
  Forall is_int32 inputs ->
  F32.is_finite learningRate = true ->
  exists p' : Perceptron,
    Adjust inputs 0 learningRate p = (Ok tt, p')
    /\ Forall2 same_value (weights p) (weights p')
    /\ same_value (bias p) (bias p').
Proof.
  intros Hlen Hin Hr. rewrite Adjust_spec, decide_True by lia.
  eexists. split; [reflexivity |]. cbn [weights bias]. split.
  - by apply Forall2_same_value_adjusted.
  - apply add_zero_r. by apply mul_zero_l_finite.
Qed.

Lemma Adjust_zero_delta_witness :
  exists p' : Perceptron,
    Adjust [2; -3] 0 one_tenth p_diag = (Ok tt, p')
    /\ Forall2 same_value (weights p_diag) (weights p')
    /\ same_value (bias p_diag) (bias p').
Proof.
  apply (Adjust_zero_delta p_diag [2; -3] one_tenth).
  - reflexivity.
  - repeat constructor; int32_bounds.
  - reflexivity.
Defined.

(** With a learning rate in range, a negative zero does become the positive
    zero. *)
Example Adjust_zero_delta_negative_zero :
  Adjust [1] 0 one_tenth (mkPerceptron [F32.neg_zero] F32.neg_zero)
  = (Ok tt, mkPerceptron [F32.zero] F32.zero).
Proof. reflexivity. Qed.

(** ** Inputs of another length than the weights *)

(** C7, as stated, fails: given one input for two weights, [Process] returns
    an answer and [Adjust] updates the first weight and the bias, and
    neither reports an error. *)
Lemma short_input_is_accepted :
  (length [5] < length (weights p_ones))%nat
  /\ Process [5] p_ones = (Ok 1, p_ones)
  /\ Adjust [5] 1 (F32.of_int 1) p_ones
     = (Ok tt, mkPerceptron [F32.of_int 6; F32.of_int 1] (F32.of_int 1)).
Proof. vm_compute. repeat split; lia. Qed.

(** C7, amended: when the number of inputs differs from the number of
    weights, one of two things happens.  With fewer inputs than weights
    neither method fails: [Process] returns the step of the sum over the
    weights that have an input, and [Adjust] updates those weights and the
    bias and leaves the other weights alone.  With more inputs than weights
    both methods panic with the run-time's index-out-of-range error at the
    first index past the weights; [Process] has changed nothing by then and
    [Adjust] has updated every weight but not the bias. *)
Theorem length_mismatch (p : Perceptron) (inputs : list Z) (delta : Z)
    (learningRate : float32) :
  length inputs <> length (weights p) ->
  ((length inputs < length (weights p))%nat
   /\ Process inputs p = (Ok (heaviside (sum_of p inputs)), p)
   /\ Adjust inputs delta learningRate p
      = (Ok tt,
         mkPerceptron (adjusted inputs delta learningRate (weights p))
           (F32.add (bias p) (F32.mul (F32.of_int delta) learningRate)))
   /\ (forall i : nat, (length inputs <= i)%nat ->
         adjusted inputs delta learningRate (weights p) !! i
         = weights p !! i))
  \/ ((length (weights p) < length inputs)%nat
      /\ Process inputs p
         = (Panic (IndexOutOfRange (length (weights p)) (length (weights p))),
            p)
      /\ Adjust inputs delta learningRate p
         = (Panic (IndexOutOfRange (length (weights p)) (length (weights p))),
            mkPerceptron (adjusted inputs delta learningRate (weights p))
              (bias p))).
Proof.
  intros Hne. rewrite Process_spec, Adjust_spec.
  destruct (decide (length inputs <= length (weights p))%nat) as [Hle | Hgt].
  - left. split; [lia |]. split; [done |]. split; [done |].
    intros i Hi. by apply lookup_adjusted_ge.
  - right. split; [lia |]. done.
Qed.

Lemma length_mismatch_witness :
  Process [5; 5; 5] p_ones = (Panic (IndexOutOfRange 2 2), p_ones)
  /\ Adjust [5; 5; 5] 1 (F32.of_int 1) p_ones
     = (Panic (IndexOutOfRange 2 2),
        mkPerceptron [F32.of_int 6; F32.of_int 6] F32.zero).
Proof.
  destruct (length_mismatch p_ones [5; 5; 5] 1 (F32.of_int 1))
    as [(Hlt & _) | (_ & HP & HA)].
  - cbn. lia.
  - cbn in Hlt. lia.
  - split; [exact HP | exact HA].
Defined.

(** ** The two boundary policies *)

Lemma f_exact (w : World) (x : Z) :
  is_int32 (a w * x + b w) -> f w x = a w * x + b w.
Proof. intros H. unfold f. rewrite wrap32_add_l. by apply wrap32_id. Qed.

Lemma isAboveLine_pair {S} (x y : Z) (line : Z -> Z) (s : S) :
  isAboveLine [x; y] line s = (Ok (if y >? line x then 1 else 0), s).
Proof. reflexivity. Qed.

(** C3: a point [(x, y)] whose [y] equals [f(x)] (be it the [int32] value
    that [f] returns or the exact [a*x + b], where that is an [int32]) gets
    label 0 from [isAboveLine], while a perceptron whose sum over inputs of
    matching length is a zero gets 1 from [Process]. *)
Theorem boundary_policies :
  (forall (w : World) (x y : Z),
     y = f w x \/ (is_int32 y /\ y = a w * x + b w) ->
     isAboveLine [x; y] (f w) w = (Ok 0, w))
  /\ (forall (p : Perceptron) (inputs : list Z),
        length inputs = length (weights p) ->
        F32.is_zero (sum_of p inputs) = true ->
        Process inputs p = (Ok 1, p)).
Proof.
  split.
  - intros w x y Hy. rewrite isAboveLine_pair.
    assert (y = f w x) as ->.
    { destruct Hy as [-> | [Hy ->]]; [done |]. by rewrite f_exact. }
    by rewrite Z.gtb_ltb, Z.ltb_irrefl.
  - intros p inputs Hlen Hz.
    rewrite Process_spec, decide_True by lia.
    unfold heaviside. by rewrite ltb_zero_of_zero.
Qed.

Lemma boundary_policies_witness :
  isAboveLine [5; 13] (f w_line) w_line = (Ok 0, w_line)
  /\ Process [7; 7] p_diag = (Ok 1, p_diag).
Proof.
  split.
  - apply (proj1 boundary_policies w_line 5 13). left. reflexivity.
  - apply (proj2 boundary_policies p_diag [7; 7]); reflexivity.
Defined.

(** ** Sample points *)

Lemma sample_point_spec (w : World) :
  sample_point w
  = (Ok [coord (tape (rand w) (drawn (rand w)));
         coord (tape (rand w) (S (drawn (rand w))))],
     drawn_more 2 w).
Proof. reflexivity. Qed.

Lemma coord_range (v : Z) : -101 <= coord v <= 99.
Proof.
  unfold coord. pose proof (Z.mod_pos_bound v 201 ltac:(lia)).
  rewrite wrap32_id; [lia | int32_bounds].
Qed.

Lemma coord_attained (c : Z) : -101 <= c <= 99 -> coord (c + 101) = c.
Proof.
  intros Hc. unfold coord. rewrite Z.mod_small by lia.
  rewrite wrap32_id; [lia | int32_bounds].
Qed.

(** C4: every sample point has both coordinates in [-101, 99]; neither
    coordinate is ever 100.  Two values are drawn for it. *)
Theorem sample_point_range (w : World) :
  exists (x y : Z) (w' : World),
    sample_point w = (Ok [x; y], w')
    /\ -101 <= x <= 99 /\ -101 <= y <= 99
    /\ x <> 100 /\ y <> 100
    /\ drawn (rand w') = S (S (drawn (rand w))).
Proof.
  rewrite sample_point_spec. do 3 eexists. split; [reflexivity |].
  pose proof (coord_range (tape (rand w) (drawn (rand w)))).
  pose proof (coord_range (tape (rand w) (S (drawn (rand w))))).
  cbn [drawn_more rand drawn]. repeat split; lia.
Qed.

(** Every point of [-101, 99] x [-101, 99] is the sample point of some
    generator. *)
Lemma sample_point_attained (w : World) (x y : Z) :
  -101 <= x <= 99 -> -101 <= y <= 99 ->
  fst (sample_point
         (mkWorld (perceptron w) (a w) (b w)
            (mkRand (fun i => if Nat.even i then x + 101 else y + 101) 0)
            (canvas w)))
  = Ok [x; y].
Proof.
  intros Hx Hy. rewrite sample_point_spec. cbn [fst rand tape drawn Nat.even].
  by rewrite !coord_attained.
Qed.

(** ** The line parameters *)

(** C5: [main] sets [a] within [-6, 4] and [b] within [-51, 49], so [a] is
    never 5 and [b] is never 50. *)
Theorem main_line_range (w : World) :
  exists w' : World,
    main_line w = (Ok tt, w')
    /\ -6 <= a w' <= 4 /\ -51 <= b w' <= 49
    /\ a w' <> 5 /\ b w' <> 50.
Proof.
  eexists. split; [reflexivity |]. cbn [a b rand tape drawn].
  pose proof (Z.mod_pos_bound (tape (rand w) (drawn (rand w))) 11 ltac:(lia)).
  pose proof (Z.mod_pos_bound (tape (rand w) (S (drawn (rand w)))) 101
                ltac:(lia)).
  rewrite !wrap32_id by int32_bounds.
  lia.
Qed.

(** Every pair of [-6, 4] x [-51, 49] is set by some generator. *)
Lemma main_line_attained (w : World) (va vb : Z) :
  -6 <= va <= 4 -> -51 <= vb <= 49 ->
  exists w' : World,
    main_line
      (mkWorld (perceptron w) (a w) (b w)
         (mkRand (fun i => if Nat.even i then va + 6 else vb + 51) 0)
         (canvas w))
    = (Ok tt, w')
    /\ a w' = va /\ b w' = vb.
Proof.
  intros Ha Hb. eexists. split; [reflexivity |].
  cbn [a b rand tape drawn Nat.even].
  rewrite !Z.mod_small by lia.
  rewrite !wrap32_id by int32_bounds.
  lia.
Qed.

(** ** Training *)

(** One iteration of [train], for a perceptron with a weight for each
    coordinate: two values are drawn, the perceptron is adjusted by the
    difference between label and answer, nothing else changes. *)
Lemma train_step_spec (rate : float32) (w : World) :
  (2 <= length (weights (perceptron w)))%nat ->
  train_step rate w
  = (Ok tt,
     mkWorld
       (mkPerceptron
          (adjusted (trial_point w 0) (next_delta w) rate
             (weights (perceptron w)))
          (F32.add (bias (perceptron w))
             (F32.mul (F32.of_int (next_delta w)) rate)))
       (a w) (b w) (mkRand (tape (rand w)) (2 + drawn (rand w))) (canvas w)).
Proof.
  intros Hlen. unfold train_step. unfold bind at 1. rewrite sample_point_spec.
  unfold bind at 1, on_perceptron. cbn [drawn_more perceptron].
  rewrite Process_spec, decide_True by (cbn [length]; lia).
  unfold bind at 1, gets. unfold bind at 1. rewrite isAboveLine_pair.
  cbn [perceptron]. rewrite Adjust_spec, decide_True by (cbn [length]; lia).
  unfold next_delta, next_label, trial_point, trial_x, trial_y, f, drawn_more.
  cbn [perceptron a b rand canvas tape drawn weights bias Nat.mul Nat.add].
  reflexivity.
Qed.

Lemma next_delta_range (w : World) :
  next_delta w = -1 \/ next_delta w = 0 \/ next_delta w = 1.
Proof.
  unfold next_delta, next_label.
  destruct (heaviside_binary (sum_of (perceptron w) (trial_point w 0)))
    as [-> | ->];
    destruct (trial_y w 0 >? f w (trial_x w 0)); vm_compute; auto.
Qed.

Lemma train_loop_spec (rate : float32) (n : nat) :
  forall w : World,
    (2 <= length (weights (perceptron w)))%nat ->
    exists w' : World,
      for_loop n (train_step rate) w = (Ok tt, w')
      /\ length (weights (perceptron w')) = length (weights (perceptron w))
      /\ a w' = a w /\ b w' = b w /\ canvas w' = canvas w
      /\ tape (rand w') = tape (rand w)
      /\ drawn (rand w') = (2 * n + drawn (rand w))%nat.
Proof.
  induction n as [| n IH]; intros w Hlen.
  - exists w. repeat split; try done.
  - cbn [for_loop]. unfold bind. rewrite train_step_spec by done.
    set (w1 := mkWorld _ _ _ _ _).
    destruct (IH w1) as (w' & -> & Hl & Ha & Hb & Hc & Ht & Hd).
    { subst w1. cbn [perceptron weights]. by rewrite length_adjusted. }
    exists w'. split; [done |]. subst w1.
    cbn [perceptron weights a b canvas rand tape drawn] in *.
    rewrite length_adjusted in Hl. repeat split; try done. lia.
Qed.

(** C10: with an iteration count that is zero or negative, [train] returns
    at once: the perceptron (weights and bias), the generator and everything
    else are as before. *)
Theorem train_no_iterations (iters : Z) (rate : float32) (w : World) :
  iters <= 0 -> train iters rate w = (Ok tt, w).
Proof.
  intros Hi. unfold train.
  replace (Z.to_nat iters) with 0%nat by lia. reflexivity.
Qed.

Lemma train_no_iterations_witness :
  -3 <= 0 /\ train (-3) one_tenth w_line = (Ok tt, w_line).
Proof.
  split; [lia |]. apply (train_no_iterations (-3) one_tenth w_line). lia.
Defined.

(** ** Verification *)

(** A run of [verify] that starts in [w0], for a perceptron that has a
    weight for each of the two coordinates. *)
Section VerifyRun.

Variable w0 : World.
Hypothesis two_weights : (2 <= length (weights (perceptron w0)))%nat.

(** Trial number [k]: the count goes up by one exactly if the answers for
    the trial's point match. *)
Lemma verify_step_spec (k : nat) (c : Z) (w : World) :
  after_trials k w0 w ->
  exists w' : World,
    verify_step c w
    = (Ok (if answers_match w0 (trial_point w0 k) then wrap32 (c + 1) else c),
       w')
    /\ after_trials (S k) w0 w'
    /\ canvas w' = canvas w ++ [trial_call w0 k].
Proof.
  intros (Hp & Ha & Hb & Ht & Hd).
  unfold verify_step. unfold bind at 1. rewrite sample_point_spec.
  unfold bind at 1, on_perceptron. cbn [drawn_more perceptron].
  rewrite Process_spec, decide_True by (rewrite Hp; cbn [length]; lia).
  unfold bind at 1, gets. unfold bind at 1. rewrite isAboveLine_pair.
  unfold bind, index, draw, modify, ret. cbn [lookup list_lookup].
  eexists. split; [| split].
  - f_equal. f_equal. unfold answers_match, trial_point, trial_x, trial_y.
    rewrite Process_spec, decide_True by (cbn [length]; lia).
    rewrite isAboveLine_pair. cbn [fst]. rewrite Ht, Hd, Hp.
    unfold f, drawn_more. cbn [a b]. rewrite Ha, Hb. reflexivity.
  - unfold after_trials, drawn_more. cbn [perceptron a b rand tape drawn].
    repeat split; try done. lia.
  - cbn [canvas drawn_more]. unfold trial_call, trial_point, trial_x, trial_y.
    by rewrite Ht, Hd, Hp.
Qed.

(** Trials [k] to [k + n - 1]: the count goes up by the number of matching
    trials among them; it stays an [int32] without wrapping. *)
Lemma verify_loop_spec (n : nat) :
  forall (k : nat) (c : Z) (w : World),
    after_trials k w0 w ->
    0 <= c -> c + Z.of_nat n <= int32_max ->
    exists w' : World,
      verify_loop n c w
      = (Ok (c + Z.of_nat
                   (length
                      (filter
                         (fun k => answers_match w0 (trial_point w0 k) = true)
                         (seq k n)))),
         w')
      /\ after_trials (n + k) w0 w'
      /\ canvas w' = canvas w ++ map (trial_call w0) (seq k n).
Proof.
  induction n as [| n IH]; intros k c w Hw Hc Hmax.
  - exists w. cbn [verify_loop seq filter list_filter length Nat.add map].
    split; [| by rewrite app_nil_r]. unfold ret. do 2 f_equal. lia.
  - cbn [verify_loop seq map]. unfold bind.
    destruct (verify_step_spec k c w Hw) as (w1 & -> & Hw1 & Hc1).
    replace (S n + k)%nat with (n + S k)%nat by lia.
    rewrite (cons_middle (trial_call w0 k)), app_assoc, <- Hc1.
    destruct (answers_match w0 (trial_point w0 k)) eqn:Hm.
    + rewrite filter_cons_True by done. cbn [length].
      rewrite wrap32_id by int32_bounds.
      destruct (IH (S k) (c + 1) w1 Hw1 ltac:(lia) ltac:(lia))
        as (w' & -> & Hw').
      exists w'. split; [do 2 f_equal; lia | done].
    + rewrite filter_cons_False by (rewrite Hm; done).
      destruct (IH (S k) c w1 Hw1 ltac:(lia) ltac:(lia)) as (w' & -> & Hw').
      by exists w'.
Qed.

End VerifyRun.

Lemma correct_trials_le (w : World) (n : nat) : (correct_trials w n <= n)%nat.
Proof.
  unfold correct_trials.
  etransitivity; [apply length_filter |]. by rewrite length_seq.
Qed.

(** A run of [verify] as a whole. *)
Lemma verify_spec (w : World) :
  (2 <= length (weights (perceptron w)))%nat ->
  verify w
  = (Ok (Z.of_nat (correct_trials w 100)),
     mkWorld (perceptron w) (a w) (b w)
       (mkRand (tape (rand w)) (200 + drawn (rand w)))
       (canvas w ++ [NewCanvas] ++ map (trial_call w) (seq 0 100)
        ++ [DrawLinearFunction (a w) (b w); Save])).
Proof.
  intros Hlen. unfold verify. unfold bind at 1, draw at 1, modify.
  set (w1 := mkWorld _ _ _ _ _).
  assert (Hw1 : after_trials 0 w w1) by (unfold after_trials; done).
  destruct (verify_loop_spec w Hlen 100 0%nat 0 w1 Hw1 ltac:(lia)
              ltac:(unfold int32_max; lia))
    as (w2 & Hrun & (Hp & Ha & Hb & Ht & Hd) & Hc).
  unfold bind at 1. rewrite Hrun.
  unfold bind, gets, draw, modify, ret.
  rewrite Hc, Ha, Hb, Hp. subst w1. cbn [canvas].
  destruct w2 as [p2 a2 b2 [t2 d2] c2]. cbn [rand tape drawn] in *. subst.
  unfold correct_trials. by rewrite <- !app_assoc.
Qed.

(** With fewer than two weights [verify] returns nothing: the first call
    of [Process] panics. *)
Lemma verify_panics_short_of_weights (w : World) :
  (length (weights (perceptron w)) < 2)%nat ->
  fst (verify w)
  = Panic (IndexOutOfRange (length (weights (perceptron w)))
             (length (weights (perceptron w)))).
Proof.
  intros Hlen. unfold verify. unfold bind at 1, draw at 1, modify.
  cbn [verify_loop Nat.add]. unfold bind at 1. unfold bind at 1.
  unfold verify_step. unfold bind at 1. rewrite sample_point_spec.
  unfold bind at 1, on_perceptron. cbn [drawn_more perceptron].
  rewrite Process_spec, decide_False by (cbn [length]; lia).
  reflexivity.
Qed.

(** C9: whenever [verify] returns, it returns the number of its 100 trials
    in which the result of [Process] for the trial's point equals the label
    [isAboveLine] gives that point, a number from 0 to 100; and it does
    return, with the perceptron as it was, for every perceptron with at
    least two weights (the one that [main] makes has two). *)
Theorem verify_counts_correct_trials (w : World) :
  (forall (n : Z) (w' : World),
     verify w = (Ok n, w') ->
     n = Z.of_nat (correct_trials w 100) /\ 0 <= n <= 100)
  /\ ((2 <= length (weights (perceptron w)))%nat ->
      exists w' : World,
        verify w = (Ok (Z.of_nat (correct_trials w 100)), w')
        /\ perceptron w' = perceptron w).
Proof.
  pose proof (correct_trials_le w 100) as Hle. split.
  - intros n w' Hrun.
    destruct (decide (2 <= length (weights (perceptron w)))%nat)
      as [Hlen | Hlen].
    + rewrite verify_spec in Hrun by done. injection Hrun as <- _. lia.
    + pose proof (verify_panics_short_of_weights w ltac:(lia)) as Hpanic.
      by rewrite Hrun in Hpanic.
  - intros Hlen. rewrite verify_spec by done. by eexists.
Qed.

Lemma verify_counts_correct_trials_witness :
  (2 <= length (weights (perceptron w_line)))%nat
  /\ exists w' : World,
       verify w_line = (Ok (Z.of_nat (correct_trials w_line 100)), w')
       /\ perceptron w' = perceptron w_line.
Proof.
  assert (Hlen : (2 <= length (weights (perceptron w_line)))%nat)
    by (cbn; lia).
  split; [exact Hlen |].
  exact (proj2 (verify_counts_correct_trials w_line) Hlen).
Defined.

(** X1: for a perceptron with at least two weights, [verify] makes these
    calls to the [draw] package, in this order: it creates a canvas, draws
    the point of each of the 100 trials with the perceptron's answer for it,
    draws the line [a], [b] once, and saves once. *)
Theorem verify_drawing_calls (w : World) :
  (2 <= length (weights (perceptron w)))%nat ->
  canvas (snd (verify w))
  = canvas w ++ [NewCanvas] ++ map (trial_call w) (seq 0 100)
    ++ [DrawLinearFunction (a w) (b w); Save].
Proof. intros Hlen. by rewrite verify_spec. Qed.

Lemma verify_drawing_calls_witness :
  length (canvas (snd (verify w_line))) = 103%nat.
Proof.
  rewrite (verify_drawing_calls w_line) by (cbn; lia).
  reflexivity.
Defined.

(** X2: for a perceptron with at least two weights, [train] returns
    normally for every iteration count and learning rate; it draws two
    values per iteration, keeps the number of weights, and leaves the line
    and the canvas alone. *)
Theorem train_runs (iters : Z) (rate : float32) (w : World) :
  (2 <= length (weights (perceptron w)))%nat ->
  exists w' : World,
    train iters rate w = (Ok tt, w')
    /\ length (weights (perceptron w')) = length (weights (perceptron w))
    /\ a w' = a w /\ b w' = b w /\ canvas w' = canvas w
    /\ tape (rand w') = tape (rand w)
    /\ drawn (rand w') = (2 * Z.to_nat iters + drawn (rand w))%nat.
Proof. intros Hlen. by apply train_loop_spec. Qed.

Lemma train_runs_witness :
  exists w' : World,
    train 3 one_tenth w_line = (Ok tt, w')
    /\ drawn (rand w') = 6%nat.
Proof.
  destruct (train_runs 3 one_tenth w_line)
    as (w' & Hrun & _ & _ & _ & _ & _ & Hd).
  - cbn. lia.
  - exists w'. split; [exact Hrun | exact Hd].
Defined.

(** X3: in an iteration of [train] the perceptron is adjusted with the
    difference between the label of the sample point and the perceptron's
    answer for it, which is -1, 0 or 1. *)
Theorem train_step_delta (rate : float32) (w : World) :
  (2 <= length (weights (perceptron w)))%nat ->
  (next_delta w = -1 \/ next_delta w = 0 \/ next_delta w = 1)
  /\ on_perceptron (Adjust (trial_point w 0) (next_delta w) rate)
       (drawn_more 2 w)
     = train_step rate w.
Proof.
  intros Hlen. split; [apply next_delta_range |].
  rewrite train_step_spec by done.
  unfold on_perceptron, drawn_more. cbn [perceptron].
  rewrite Adjust_spec, decide_True by (unfold trial_point; cbn [length]; lia).
  reflexivity.
Qed.

Lemma train_step_delta_witness :
  next_delta w_line = -1 \/ next_delta w_line = 0 \/ next_delta w_line = 1.
Proof.
  assert (Hlen : (2 <= length (weights (perceptron w_line)))%nat)
    by (cbn; lia).
  exact (proj1 (train_step_delta one_tenth w_line Hlen)).
Defined.

(** ** The whole program *)

Lemma main_line_spec (w : World) :
  main_line w
  = (Ok tt,
     mkWorld (perceptron w)
       (wrap32 (tape (rand w) (drawn (rand w)) mod 11 - 6))
       (wrap32 (tape (rand w) (S (drawn (rand w))) mod 101 - 51))
       (mkRand (tape (rand w)) (2 + drawn (rand w))) (canvas w)).
Proof. reflexivity. Qed.

(** [NewPerceptron(2)] draws three values and makes two weights. *)
Lemma NewPerceptron_two (w : World) :
  exists w0 w1 bias0 : float32,
    NewPerceptron 2 w = (Ok (mkPerceptron [w0; w1] bias0), drawn_more 3 w).
Proof. do 3 eexists. reflexivity. Qed.

(** X4: whatever the seed, [main] runs to its end without a panic: it
    prints a number from 0 to 100, has drawn 2205 random values by then (2
    for the line, 3 for the perceptron, 2 per iteration of [train] and 2 per
    trial of [verify]) and its perceptron has two weights. *)
Theorem main_runs (w : World) :
  exists (successRate : Z) (w' : World),
    main w = (Ok successRate, w')
    /\ 0 <= successRate <= 100
    /\ length (weights (perceptron w')) = 2%nat
    /\ drawn (rand w') = (2205 + drawn (rand w))%nat.
Proof.
  unfold main. unfold bind at 1. rewrite main_line_spec.
  set (w1 := mkWorld _ _ _ _ _).
  destruct (NewPerceptron_two w1) as (x0 & x1 & b0 & Hnew).
  unfold bind at 1. rewrite Hnew. unfold bind at 1, modify.
  set (w2 := mkWorld _ _ _ _ _).
  assert (Hlen2 : (2 <= length (weights (perceptron w2)))%nat)
    by (subst w2; cbn [perceptron weights length]; lia).
  destruct (train_loop_spec one_tenth (Z.to_nat 1000) w2 Hlen2)
    as (w3 & Htrain & Hl & _ & _ & _ & Ht & Hd).
  unfold bind at 1. unfold train. rewrite Htrain.
  assert (Hlen3 : (2 <= length (weights (perceptron w3)))%nat) by lia.
  unfold bind, ret. rewrite verify_spec by done.
  do 2 eexists. split; [reflexivity |].
  pose proof (correct_trials_le w3 100).
  cbn [perceptron rand drawn]. split; [lia |]. split.
  - rewrite Hl. by subst w2.
  - rewrite Hd. subst w2 w1. cbn [rand drawn drawn_more]. lia.
Qed.

(** ** The step function and the order of [float32] *)

(** X5: the step function is monotone: if [x <= y] holds for two
    [float32] values, the step of [x] is at most the step of [y]. *)
Theorem heaviside_monotone (x y : float32) :
  F32.leb x y = true -> heaviside x <= heaviside y.
Proof.
  unfold heaviside.
  destruct x as [[] | [] | | [] mx ex], y as [[] | [] | | [] my ey];
    try done; cbn; lia.
Qed.

Lemma heaviside_monotone_witness :
  F32.leb (F32.of_int (-3)) one_tenth = true
  /\ heaviside (F32.of_int (-3)) <= heaviside one_tenth.
Proof.
  split; [reflexivity |].
  apply (heaviside_monotone (F32.of_int (-3)) one_tenth). reflexivity.
Defined.

(** ** Values that differ in the sign of a zero *)

Lemma alike_refl (x : float32) : alike x x.
Proof. by left. Qed.

Lemma same_value_alike (old new : float32) :
  same_value old new -> alike old new.
Proof. intros [-> | [-> ->]]; [by left | by right]. Qed.

Lemma alike_heaviside (x y : float32) : alike x y -> heaviside x = heaviside y.
Proof.
  intros [-> | [Hx Hy]]; [done |]. unfold heaviside.
  by rewrite !ltb_zero_of_zero.
Qed.

Lemma alike_mul (x y y' : float32) :
  alike y y' -> alike (F32.mul x y) (F32.mul x y').
Proof.
  intros [-> | [Hy Hy']]; [by left |].
  destruct y as [sy | | |], y' as [sy' | | |]; try done.
  destruct x as [sx | sx | | sx mx ex]; [right | left | left | right]; done.
Qed.

Lemma alike_add (s s' t t' : float32) :
  alike s s' -> alike t t' -> alike (F32.add s t) (F32.add s' t').
Proof.
  intros [-> | [Hs Hs']] [-> | [Ht Ht']]; [by left | | |].
  - destruct t as [[] | | |], t' as [[] | | |]; try done;
      destruct s' as [[] | [] | | [] m e]; (by left) || (by right).
  - destruct s as [[] | | |], s' as [[] | | |]; try done;
      destruct t' as [[] | [] | | [] m e]; (by left) || (by right).
  - destruct s as [[] | | |], s' as [[] | | |]; try done;
      destruct t as [[] | | |], t' as [[] | | |]; try done; by right.
Qed.

Lemma alike_weighted_sum (inputs : list Z) :
  forall (ws ws' : list float32) (s s' : float32),
    alike s s' -> Forall2 alike ws ws' ->
    alike (weighted_sum s inputs ws) (weighted_sum s' inputs ws').
Proof.
  induction inputs as [| input inputs IH]; intros ws ws' s s' Hs Hws.
  - by destruct ws, ws'.
  - destruct Hws as [| w w' ws ws' Hw Hws]; [done |].
    cbn [weighted_sum]. apply IH; [| done].
    apply alike_add; [done |]. by apply alike_mul.
Qed.

(** Perceptrons whose weights and biases are alike answer alike. *)
Lemma Process_alike (p q : Perceptron) (inputs : list Z) :
  Forall2 alike (weights p) (weights q) -> alike (bias p) (bias q) ->
  fst (Process inputs q) = fst (Process inputs p).
Proof.
  intros Hws Hb. rewrite !Process_spec. cbn [fst].
  rewrite <- (Forall2_length _ _ _ Hws).
  destruct (decide (length inputs <= length (weights p))%nat); [| done].
  f_equal. symmetry. apply alike_heaviside.
  by apply alike_weighted_sum.
Qed.

(** ** More on [Process] and [Adjust] *)

(** Whatever the inputs, also when it panics, [Adjust] with [delta = 0] and
    a finite learning rate leaves weights and bias alike. *)
Lemma Adjust_zero_delta_alike (p : Perceptron) (inputs : list Z)
    (learningRate : float32) :
  Forall is_int32 inputs -> F32.is_finite learningRate = true ->
  Forall2 alike (weights p)
    (weights (snd (Adjust inputs 0 learningRate p)))
  /\ alike (bias p) (bias (snd (Adjust inputs 0 learningRate p))).
Proof.
  intros Hin Hr.
  assert (Hws : Forall2 alike (weights p)
                  (adjusted inputs 0 learningRate (weights p))).
  { eapply Forall2_impl; [by apply Forall2_same_value_adjusted |].
    apply same_value_alike. }
  rewrite Adjust_spec.
  destruct (decide (length inputs <= length (weights p))%nat);
    cbn [snd weights bias]; (split; [done |]).
  - apply same_value_alike, add_zero_r. by apply mul_zero_l_finite.
  - apply alike_refl.
Qed.

(** X6: a call of [Adjust] with [delta = 0] and a learning rate that is
    neither infinite nor NaN is invisible to [Process]: whatever inputs
    either is given, [Process] answers after the call as it did before. *)
Theorem Adjust_zero_delta_keeps_answers (p : Perceptron)
    (inputs inputs' : list Z) (learningRate : float32) :
  Forall is_int32 inputs -> F32.is_finite learningRate = true ->
  fst (Process inputs' (snd (Adjust inputs 0 learningRate p)))
  = fst (Process inputs' p).
Proof.
  intros Hin Hr.
  destruct (Adjust_zero_delta_alike p inputs learningRate Hin Hr) as [Hws Hb].
  by apply Process_alike.
Qed.

Lemma Adjust_zero_delta_keeps_answers_witness :
  fst (Process [3; 7]
         (snd (Adjust [2; -3] 0 one_tenth
                 (mkPerceptron [F32.neg_zero; F32.of_int 1] F32.neg_zero))))
  = fst (Process [3; 7]
           (mkPerceptron [F32.neg_zero; F32.of_int 1] F32.neg_zero)).
Proof.
  apply (Adjust_zero_delta_keeps_answers
           (mkPerceptron [F32.neg_zero; F32.of_int 1] F32.neg_zero)
           [2; -3] [3; 7] one_tenth).
  - repeat constructor; int32_bounds.
  - reflexivity.
Defined.

Lemma weighted_sum_zero_inputs (inputs : list Z) :
  Forall (fun input => input = 0) inputs ->
  forall (ws : list float32) (s : float32),
    Forall (fun w => F32.is_finite w = true) ws ->
    alike s (weighted_sum s inputs ws).
Proof.
  intros Hin. induction Hin as [| input inputs -> _ IH]; intros ws s Hws.
  - by left.
  - destruct Hws as [| w ws Hw Hws]; [by left |]. cbn [weighted_sum].
    assert (Hstep : alike s (F32.add s (F32.mul (F32.of_int 0) w))).
    { apply same_value_alike, add_zero_r. by apply mul_zero_l_finite. }
    destruct Hstep as [Heq | [Hz Hz']].
    + rewrite <- Heq. by apply IH.
    + destruct (IH ws (F32.add s (F32.mul (F32.of_int 0) w)) Hws)
        as [<- | [_ Hz'']]; by right.
Qed.

(** X7: at the origin the bias alone decides: when every input is 0 and
    every weight is finite (neither infinite nor NaN), [Process] returns the
    step of the bias, for any number of inputs that the weights cover (none
    included). *)
Theorem Process_at_origin (p : Perceptron) (inputs : list Z) :
  Forall (fun input => input = 0) inputs ->
  Forall (fun w => F32.is_finite w = true) (weights p) ->
  (length inputs <= length (weights p))%nat ->
  Process inputs p = (Ok (heaviside (bias p)), p).
Proof.
  intros Hin Hws Hlen. rewrite Process_spec, decide_True by done.
  do 2 f_equal. symmetry. apply alike_heaviside.
  by apply weighted_sum_zero_inputs.
Qed.

Lemma Process_at_origin_witness :
  Process [0; 0] (mkPerceptron [one_tenth; F32.of_int (-7)] (F32.of_int (-1)))
  = (Ok 0, mkPerceptron [one_tenth; F32.of_int (-7)] (F32.of_int (-1))).
Proof.
  apply (Process_at_origin
           (mkPerceptron [one_tenth; F32.of_int (-7)] (F32.of_int (-1)))
           [0; 0]).
  - repeat constructor.
  - repeat constructor.
  - cbn. lia.
Defined.

(** An infinite weight is another matter: [0 * Inf] is NaN, and the step of
    NaN is 1 whatever the bias. *)
Example Process_at_origin_infinite_weight :
  Process [0] (mkPerceptron [F32.inf] (F32.of_int (-1)))
  = (Ok 1, mkPerceptron [F32.inf] (F32.of_int (-1))).
Proof. reflexivity. Qed.

(** X8: the number of weights is fixed: neither [Process] nor [Adjust]
    changes it, whatever the inputs, whether the call returns or panics. *)
Theorem weight_count_is_kept (p : Perceptron) (inputs : list Z) (delta : Z)
    (learningRate : float32) :
  length (weights (snd (Process inputs p))) = length (weights p)
  /\ length (weights (snd (Adjust inputs delta learningRate p)))
     = length (weights p).
Proof.
  rewrite Process_spec, Adjust_spec. split; [done |].
  destruct (decide (length inputs <= length (weights p))%nat);
    cbn [snd weights]; apply length_adjusted.
Qed.

(** ** More on the line *)


Lemma f_in_range (w : World) (x : Z) :
  -6 <= a w <= 4 -> -51 <= b w <= 49 -> -101 <= x <= 99 ->
  f w x = a w * x + b w /\ -657 <= f w x <= 655.
Proof.
  intros Ha Hb Hx.
  assert (Hbound : -657 <= a w * x + b w <= 655) by nia.
  rewrite f_exact by int32_bounds. done.
Qed.

(** X10: for the lines that [main] can draw ([a] in [-6, 4], [b] in
    [-51, 49]) and the sample points of any trial, [f] does not overflow:
    the label that [isAboveLine] gives a sample point is 1 exactly if
    [y > a*x + b] over the integers. *)
Theorem sample_label_is_exact (w : World) (k : nat) :
  -6 <= a w <= 4 -> -51 <= b w <= 49 ->
  isAboveLine (trial_point w k) (f w) w
  = (Ok (exact_label (a w) (b w) (trial_x w k) (trial_y w k)), w).
Proof.
  intros Ha Hb. unfold trial_point. rewrite isAboveLine_pair.
  unfold exact_label.
  by destruct (f_in_range w (trial_x w k) Ha Hb (coord_range _)) as [-> _].
Qed.

Lemma sample_label_is_exact_witness :
  isAboveLine (trial_point w_line 1) (f w_line) w_line
  = (Ok (exact_label 2 3 (trial_x w_line 1) (trial_y w_line 1)), w_line).
Proof.
  apply (sample_label_is_exact w_line 1); cbn; lia.
Defined.

(** Outside those ranges [f] can wrap around: with [a = 2^30] the value at
    2 is [-2^31], and the point (2, 0) counts as above the line. *)
Example f_wraps_around :
  f (mkWorld p_diag (2 ^ 30) 0 (rand w_line) []) 2 = - 2 ^ 31
  /\ fst (isAboveLine [2; 0] (f (mkWorld p_diag (2 ^ 30) 0 (rand w_line) []))
            w_line)
     = Ok 1.
Proof. split; reflexivity. Qed.

(** ** More on [NewPerceptron] *)

Lemma random_weight_spec (w : World) :
  random_weight w = (Ok (fresh_weight w 0), drawn_more 1 w).
Proof. reflexivity. Qed.

Lemma drawn_more_more (m n : nat) (w : World) :
  drawn_more m (drawn_more n w) = drawn_more (m + n) w.
Proof.
  unfold drawn_more. cbn [perceptron a b rand tape drawn canvas].
  do 2 f_equal. lia.
Qed.

Lemma fresh_weight_later (n i : nat) (w : World) :
  fresh_weight (drawn_more n w) i = fresh_weight w (i + n).
Proof.
  unfold fresh_weight, drawn_more. cbn [rand tape drawn].
  do 4 f_equal. lia.
Qed.

(** The loop fills the slots from [i] on, one draw for each. *)
Lemma NewPerceptron_loop_spec (k : nat) :
  forall (i : nat) (ws : list float32) (w : World),
    (i + k)%nat = length ws ->
    NewPerceptron_loop k i ws w
    = (Ok (take i ws ++ map (fresh_weight w) (seq 0 k)), drawn_more k w).
Proof.
  induction k as [| k IH]; intros i ws w Hlen.
  - cbn [NewPerceptron_loop seq map]. unfold ret, drawn_more.
    rewrite app_nil_r, take_ge by lia. by destruct w as [? ? ? []].
  - cbn [NewPerceptron_loop]. unfold bind at 1. rewrite random_weight_spec.
    unfold bind at 1, store. rewrite decide_True by lia. unfold ret at 1.
    rewrite IH by (rewrite length_insert; lia).
    rewrite drawn_more_more. replace (k + 1)%nat with (S k) by lia.
    do 2 f_equal. cbn [seq map].
    rewrite (take_S_r _ _ (fresh_weight w 0))
      by (apply list_lookup_insert_eq; lia).
    rewrite take_insert_ge by lia. rewrite <- app_assoc. cbn [app].
    do 2 f_equal. rewrite <- seq_shift, map_map.
    apply map_ext. intros j. rewrite fresh_weight_later. f_equal. lia.
Qed.

(** X11: for [n >= 0], [NewPerceptron(n)] returns a perceptron with
    exactly [n] weights; it draws [n + 1] random values, one for each weight
    in index order and the last for the bias, and touches nothing else.  For
    [n < 0] it panics in [make], before anything is drawn. *)
Theorem NewPerceptron_spec (n : Z) (w : World) :
  (0 <= n ->
   NewPerceptron n w
   = (Ok (mkPerceptron (map (fresh_weight w) (seq 0 (Z.to_nat n)))
            (fresh_weight w (Z.to_nat n))),
      drawn_more (S (Z.to_nat n)) w)
   /\ length (map (fresh_weight w) (seq 0 (Z.to_nat n))) = Z.to_nat n)
  /\ (n < 0 -> NewPerceptron n w = (Panic MakeSliceLenOutOfRange, w)).
Proof.
  split.
  - intros Hn. split; [| by rewrite length_map, length_seq].
    unfold NewPerceptron, make. unfold bind at 1.
    assert ((n <? 0) = false) as -> by lia. unfold ret at 1.
    unfold bind at 1.
    rewrite NewPerceptron_loop_spec by (rewrite length_replicate; lia).
    cbn [take app]. unfold bind. rewrite random_weight_spec.
    rewrite fresh_weight_later, drawn_more_more. cbn [Nat.add]. done.
  - intros Hn. unfold NewPerceptron, make, bind.
    by assert ((n <? 0) = true) as -> by lia.
Qed.

Lemma NewPerceptron_spec_witness :
  (exists p : Perceptron,
     NewPerceptron 3 w_line = (Ok p, drawn_more 4 w_line)
     /\ length (weights p) = 3%nat)
  /\ NewPerceptron (-1) w_line = (Panic MakeSliceLenOutOfRange, w_line).
Proof.
  destruct (NewPerceptron_spec 3 w_line) as [Hnew _].
  destruct (Hnew ltac:(lia)) as [Hrun Hlen].
  split.
  - eexists. split; [exact Hrun | exact Hlen].
  - apply (proj2 (NewPerceptron_spec (-1) w_line)). lia.
Defined.

(** ** More on [train] *)

Lemma for_loop_add {S} (m n : nat) (body : M S unit) (s : S) :
  for_loop (m + n) body s
  = (let* _ := for_loop m body in for_loop n body) s.
Proof.
  revert s. induction m as [| m IH]; intros s; [done |].
  cbn [for_loop Nat.add]. unfold bind in *.
  destruct (body s) as [[[] | e] s1]; [| done].
  apply IH.
Qed.

(** X12: training in two goes is training in one: for iteration counts
    [m, n >= 0], [train] with [m + n] iterations does what [train] with [m]
    followed by [train] with [n] does, the second call taking up the stream
    of random values where the first left it (also when one panics). *)
Theorem train_add (m n : Z) (rate : float32) (w : World) :
  0 <= m -> 0 <= n ->
  train (m + n) rate w = (let* _ := train m rate in train n rate) w.
Proof.
  intros Hm Hn. unfold train.
  rewrite Z2Nat.inj_add by done. apply for_loop_add.
Qed.

Lemma train_add_witness :
  train (2 + 3) one_tenth w_line
  = (let* _ := train 2 one_tenth in train 3 one_tenth) w_line.
Proof. apply (train_add 2 3 one_tenth w_line); lia. Defined.

Lemma trial_point_int32 (w : World) (k : nat) :
  Forall is_int32 (trial_point w k).
Proof.
  assert (Hc : forall v : Z, is_int32 (coord v))
    by (intros v; pose proof (coord_range v); int32_bounds).
  unfold trial_point, trial_x, trial_y.
  constructor; [apply Hc |]. constructor; [apply Hc | constructor].
Qed.

(** X13: [train] learns from mistakes only: in an iteration whose sample
    point the perceptron answers as the line labels it, with a learning rate
    that is neither infinite nor NaN, every weight and the bias keep their
    value (a negative zero may become the positive zero). *)
Theorem train_step_on_correct_answer (rate : float32) (w : World) :
  (2 <= length (weights (perceptron w)))%nat ->
  F32.is_finite rate = true ->
  heaviside (sum_of (perceptron w) (trial_point w 0)) = next_label w ->
  exists w' : World,
    train_step rate w = (Ok tt, w')
    /\ Forall2 same_value (weights (perceptron w)) (weights (perceptron w'))
    /\ same_value (bias (perceptron w)) (bias (perceptron w')).
Proof.
  intros Hlen Hr Hright. rewrite train_step_spec by done.
  assert (next_delta w = 0) as ->.
  { unfold next_delta. rewrite Hright, Z.sub_diag. reflexivity. }
  eexists. split; [reflexivity |]. cbn [perceptron weights bias]. split.
  - apply Forall2_same_value_adjusted; [apply trial_point_int32 | done].
  - apply add_zero_r. by apply mul_zero_l_finite.
Qed.

Lemma train_step_on_correct_answer_witness :
  exists w' : World,
    train_step one_tenth w_right = (Ok tt, w')
    /\ Forall2 same_value (weights (perceptron w_right))
         (weights (perceptron w'))
    /\ same_value (bias (perceptron w_right)) (bias (perceptron w')).
Proof.
  apply (train_step_on_correct_answer one_tenth w_right).
  - cbn. lia.
  - reflexivity.
  - reflexivity.
Defined.

(** X14: with fewer than two weights and at least one iteration, [train]
    panics in its first iteration, in [Process], with the run-time's index
    error: two values have been drawn and nothing else has changed. *)
Theorem train_panics_short_of_weights (iters : Z) (rate : float32)
    (w : World) :
  (length (weights (perceptron w)) < 2)%nat -> 0 < iters ->
  train iters rate w
  = (Panic (IndexOutOfRange (length (weights (perceptron w)))
              (length (weights (perceptron w)))),
     drawn_more 2 w).
Proof.
  intros Hlen Hi. unfold train.
  destruct (Z.to_nat iters) as [| n] eqn:Hn; [lia |].
  cbn [for_loop]. unfold bind at 1, train_step. unfold bind at 1.
  rewrite sample_point_spec. unfold bind at 1, on_perceptron.
  cbn [drawn_more perceptron].
  rewrite Process_spec, decide_False by (cbn [length]; lia).
  reflexivity.
Qed.

Lemma train_panics_short_of_weights_witness :
  train 5 one_tenth
    (mkWorld p_inf (a w_line) (b w_line) (rand w_line) (canvas w_line))
  = (Panic (IndexOutOfRange 1 1),
     drawn_more 2
       (mkWorld p_inf (a w_line) (b w_line) (rand w_line) (canvas w_line))).
Proof.
  apply (train_panics_short_of_weights 5 one_tenth
           (mkWorld p_inf (a w_line) (b w_line) (rand w_line)
              (canvas w_line))).
  - cbn. lia.
  - lia.
Defined.

(** ** Computations in sequence *)

Lemma bind_ok {S A B} (c : M S A) (k : A -> M S B) (s s' : S) (x : A) :
  c s = (Ok x, s') -> (let* y := c in k y) s = k x s'.
Proof. intros Hc. unfold bind. by rewrite Hc. Qed.

Lemma bind_ret_r {S A} (c : M S A) (s : S) :
  (let* x := c in ret x) s = c s.
Proof. unfold bind, ret. by destruct (c s) as [[x | e] s']. Qed.

(** ** A perceptron that is right already *)

Lemma alike_trans (x y z : float32) : alike x y -> alike y z -> alike x z.
Proof.
  intros [-> | [Hx Hy]] [<- | [Hy' Hz]]; try done; try (by left);
    by right.
Qed.

Lemma alike_perceptrons_trans (p q r : Perceptron) :
  alike_perceptrons p q -> alike_perceptrons q r -> alike_perceptrons p r.
Proof.
  intros [Hw Hb] [Hw' Hb']. split; [| by eapply alike_trans].
  eapply Forall2_trans; [apply alike_trans | done | done].
Qed.

Lemma answers_match_true (w : World) (k : nat) :
  (2 <= length (weights (perceptron w)))%nat ->
  answers_match w (trial_point w k) = true ->
  heaviside (sum_of (perceptron w) (trial_point w k))
  = (if trial_y w k >? f w (trial_x w k) then 1 else 0).
Proof.
  intros Hlen. unfold answers_match.
  rewrite Process_spec, decide_True by (unfold trial_point; cbn [length]; lia).
  unfold trial_point at 2. rewrite isAboveLine_pair. cbn [fst].
  apply Z.eqb_eq.
Qed.

(** An iteration on a sample that the perceptron answers as the line labels
    it leaves the perceptron alike. *)
Lemma train_step_still_alike (rate : float32) (w0 w : World) (k : nat) :
  (2 <= length (weights (perceptron w0)))%nat ->
  F32.is_finite rate = true ->
  answers_match w0 (trial_point w0 k) = true ->
  still_alike k w0 w ->
  exists w' : World,
    train_step rate w = (Ok tt, w') /\ still_alike (S k) w0 w'.
Proof.
  intros Hlen Hr Hright ([Hws Hbias] & Ha & Hb & Hc & Ht & Hd).
  assert (Hlen' : (2 <= length (weights (perceptron w)))%nat)
    by (rewrite <- (Forall2_length _ _ _ Hws); done).
  assert (Hx : trial_x w 0 = trial_x w0 k)
    by (unfold trial_x; rewrite Ht, Hd; do 2 f_equal; lia).
  assert (Hy : trial_y w 0 = trial_y w0 k)
    by (unfold trial_y; rewrite Ht, Hd; do 3 f_equal; lia).
  assert (Hpt : trial_point w 0 = trial_point w0 k)
    by (unfold trial_point; by rewrite Hx, Hy).
  assert (Hf : f w = f w0) by (unfold f; by rewrite Ha, Hb).
  assert (Hdelta : next_delta w = 0).
  { unfold next_delta, next_label. rewrite Hpt, Hx, Hy, Hf.
    rewrite <- (answers_match_true w0 k Hlen Hright).
    replace (heaviside (sum_of (perceptron w) (trial_point w0 k)))
      with (heaviside (sum_of (perceptron w0) (trial_point w0 k)));
      [by rewrite Z.sub_diag |].
    apply alike_heaviside. by apply alike_weighted_sum. }
  rewrite train_step_spec by done. rewrite Hdelta.
  eexists. split; [reflexivity |].
  unfold still_alike. cbn [perceptron a b canvas rand tape drawn].
  split; [| repeat split; try done; lia].
  apply (alike_perceptrons_trans _ (perceptron w)); [done |].
  split; cbn [weights bias].
  - eapply Forall2_impl; [| apply same_value_alike].
    apply Forall2_same_value_adjusted; [apply trial_point_int32 | done].
  - apply same_value_alike, add_zero_r. by apply mul_zero_l_finite.
Qed.

Lemma train_loop_still_alike (rate : float32) (w0 : World) (n : nat) :
  (2 <= length (weights (perceptron w0)))%nat ->
  F32.is_finite rate = true ->
  forall (k : nat) (w : World),
    (forall j : nat, (k <= j < k + n)%nat ->
       answers_match w0 (trial_point w0 j) = true) ->
    still_alike k w0 w ->
    exists w' : World,
      for_loop n (train_step rate) w = (Ok tt, w')
      /\ still_alike (n + k) w0 w'.
Proof.
  intros Hlen Hr. induction n as [| n IH]; intros k w Hright Hw.
  - by exists w.
  - cbn [for_loop].
    destruct (train_step_still_alike rate w0 w k Hlen Hr) as (w1 & Hstep & Hw1);
      [apply Hright; lia | done |].
    rewrite (bind_ok _ _ _ _ _ Hstep).
    destruct (IH (S k) w1) as (w' & Hrun & Hw'); [| done |].
    { intros j Hj. apply Hright. lia. }
    exists w'. split; [done |].
    by replace (S n + k)%nat with (n + S k)%nat by lia.
Qed.

(** X16: a perceptron that is right already is a fixed point of training:
    if it has at least two weights and answers each of the sample points of
    the coming [iters] iterations as the line labels it, then [train], at a
    learning rate that is neither infinite nor NaN, returns normally with
    every weight and the bias alike (the same value, or a zero for a zero),
    and [Process] answers every input afterwards as before. *)
Theorem train_fixed_point (iters : Z) (rate : float32) (w : World) :
  (2 <= length (weights (perceptron w)))%nat ->
  F32.is_finite rate = true ->
  (forall k : nat, (k < Z.to_nat iters)%nat ->
     answers_match w (trial_point w k) = true) ->
  exists w' : World,
    train iters rate w = (Ok tt, w')
    /\ alike_perceptrons (perceptron w) (perceptron w')
    /\ (forall inputs : list Z,
          fst (Process inputs (perceptron w'))
          = fst (Process inputs (perceptron w))).
Proof.
  intros Hlen Hr Hright.
  assert (Hw : still_alike 0 w w).
  { unfold still_alike, alike_perceptrons. repeat split; try done.
    - apply Forall2_same_length_lookup_2; [done |].
      intros i x y Hx Hy. left. congruence.
    - by left. }
  destruct (train_loop_still_alike rate w (Z.to_nat iters) Hlen Hr 0%nat w)
    as (w' & Hrun & [Hws Hb] & _); [| done |].
  { intros j Hj. apply Hright. lia. }
  exists w'. split; [done |]. split; [done |].
  intros inputs. by apply Process_alike.
Qed.

Lemma train_fixed_point_witness :
  exists w' : World,
    train 2 one_tenth w_right = (Ok tt, w')
    /\ alike_perceptrons (perceptron w_right) (perceptron w').
Proof.
  destruct (train_fixed_point 2 one_tenth w_right) as (w' & Hrun & Hp & _).
  - cbn. lia.
  - reflexivity.
  - intros [| [| k]] Hk; [vm_compute; reflexivity | vm_compute; reflexivity |].
    exfalso. change (Z.to_nat 2) with 2%nat in Hk. lia.
  - exists w'. split; [exact Hrun | exact Hp].
Defined.

(** ** More on [main] *)

Lemma trial_call_draws_sample (w : World) (k : nat) :
  draws_sample (trial_call w k).
Proof.
  unfold draws_sample, trial_call, trial_x, trial_y.
  do 3 eexists. split; [reflexivity |]. split; apply coord_range.
Qed.

(** [main] up to the end of training, and [verify] from there. *)
Lemma main_spec (w : World) :
  exists w3 : World,
    main w = verify w3
    /\ (2 <= length (weights (perceptron w3)))%nat
    /\ a w3 = a (snd (main_line w)) /\ b w3 = b (snd (main_line w))
    /\ canvas w3 = canvas w.
Proof.
  destruct (NewPerceptron_two (snd (main_line w))) as (x0 & x1 & b0 & Hnew).
  set (w2 := mkWorld (mkPerceptron [x0; x1] b0) (a (snd (main_line w)))
               (b (snd (main_line w)))
               (rand (drawn_more 3 (snd (main_line w)))) (canvas w)).
  assert (Hlen2 : (2 <= length (weights (perceptron w2)))%nat)
    by (subst w2; cbn [perceptron weights length]; lia).
  destruct (train_loop_spec one_tenth (Z.to_nat 1000) w2 Hlen2)
    as (w3 & Htrain & Hl & Ha & Hb & Hc & _ & _).
  exists w3. split.
  - unfold main.
    rewrite (bind_ok main_line _ w (snd (main_line w)) tt)
      by (by rewrite main_line_spec).
    rewrite (bind_ok (NewPerceptron 2) _ _ _ _ Hnew).
    rewrite (bind_ok (modify _) _ _ w2 tt) by (by rewrite main_line_spec).
    rewrite (bind_ok (train 1000 one_tenth) _ _ _ _ Htrain).
    apply bind_ret_r.
  - split; [lia |]. rewrite Ha, Hb, Hc. subst w2. cbn [a b canvas].
    split; [reflexivity | split; reflexivity].
Qed.

(** X15: whatever the seed, [main] hands the [draw] package a new canvas,
    then 100 points with both coordinates in [-101, 99], then the line, then
    one save; the line it draws is the one it set at the start and trained
    against, with [a] in [-6, 4] and [b] in [-51, 49]. *)
Theorem main_drawing_calls (w : World) :
  exists points : list draw_call,
    canvas (snd (main w))
    = canvas w ++ [NewCanvas] ++ points
      ++ [DrawLinearFunction (a (snd (main w))) (b (snd (main w))); Save]
    /\ length points = 100%nat
    /\ Forall draws_sample points
    /\ a (snd (main w)) = a (snd (main_line w))
    /\ b (snd (main w)) = b (snd (main_line w))
    /\ -6 <= a (snd (main w)) <= 4 /\ -51 <= b (snd (main w)) <= 49.
Proof.
  destruct (main_spec w) as (w3 & -> & Hlen & Ha & Hb & Hc).
  rewrite verify_spec by done. cbn [snd canvas a b]. rewrite Hc, Ha, Hb.
  exists (map (trial_call w3) (seq 0 100)). split; [done |].
  split; [by rewrite length_map, length_seq |].
  split; [apply Forall_map, Forall_forall; intros k _;
          apply trial_call_draws_sample |].
  split; [done |]. split; [done |].
  rewrite main_line_spec. cbn [snd a b].
  pose proof (Z.mod_pos_bound (tape (rand w) (drawn (rand w))) 11 ltac:(lia)).
  pose proof (Z.mod_pos_bound (tape (rand w) (S (drawn (rand w)))) 101
                ltac:(lia)).
  rewrite !wrap32_id by int32_bounds. lia.
Qed.

(** ** The program at work *)

Example of_int_101 : F32.of_int 101 = S754_finite false 13238272 (-17).
Proof. reflexivity. Qed.

(** [float32(16777217)] rounds to 2^24. *)
Example of_int_rounds : F32.of_int 16777217 = F32.of_int 16777216.
Proof. reflexivity. Qed.

Example one_tenth_valid : F32.valid one_tenth = true.
Proof. reflexivity. Qed.

(** [main] on the tape of [w_line]. *)
Example main_on_a_tape : fst (main w_line) = Ok 100.
Proof. vm_compute. reflexivity. Qed.

(** A thousand iterations at rate 0.1 on the line [y = 2*x + 3], then the
    hundred trials of [verify]. *)
Example train_then_verify :
  fst (train 1000 one_tenth w_line) = Ok tt
  /\ fst (verify (snd (train 1000 one_tenth w_line))) = Ok 98
  /\ correct_trials (snd (train 1000 one_tenth w_line)) 100 = 98%nat.
Proof. vm_compute. repeat split. Qed.

